(** * Knowledge base over Zilliz and Qwen: a shallow embedding of the TypeScript sources

    The three classes of the TypeScript implementation are embedded here:
    [QwenVectorizer] (vectorizer.ts), [ZillizManager] (zilliz.ts) and
    [KnowledgeManager] (knowledgeManager.ts).

    - JavaScript numbers that carry measurements (vector components, weights,
      distances, thresholds) are IEEE 754 values, modelled by [spec_float];
      integral quantities (dimensions, limits, timestamps, status codes) are [Z].
    - Optional properties of an interface ([text?: string]) are [option]s; a
      property read on a value that lacks it is [None] ([undefined]).
    - Every method is [async] and may throw: it is a computation in the monad
      [M], which threads the [World] (the log of remote calls made so far and
      the counters of the random and clock sources) and ends in [Ok] or [Throw].
    - The two remote services, the uuid generator and the clock are not part
      of the program: they are the environment [Env], an arbitrary oracle that
      answers each call from the history of the calls made before it. *)

From Stdlib Require Import ZArith List String Bool Lia Sorted.
From Stdlib Require Import Floats.SpecFloat.
Import ListNotations.

Local Open Scope string_scope.
Local Open Scope Z_scope.

Set Implicit Arguments.

(** ** JavaScript values *)

(** A JavaScript [number] used as a measurement. *)
Definition number : Type := spec_float.

Module JS.

Definition zero : number := S754_zero false.

(** The double [1.0]: mantissa [2^52], exponent [-52]. *)
Definition one : number := S754_finite false 4503599627370496 (-52).

(** [ToBoolean] on a number: [+0], [-0] and [NaN] are falsy. *)
Definition truthy_number (x : number) : bool :=
  match x with
  | S754_zero _ | S754_nan => false
  | _ => true
  end.

Definition truthy_int (n : Z) : bool := negb (n =? 0).

Definition truthy_string (s : string) : bool :=
  match s with
  | EmptyString => false
  | _ => true
  end.

(** [a || b] where [a] is a number. *)
Definition or_number (a b : number) : number :=
  if truthy_number a then a else b.

(** [a || b] where [a] may be [undefined]. *)
Definition or_opt_number (a : option number) (b : number) : number :=
  match a with
  | Some x => or_number x b
  | None => b
  end.

Definition or_opt_int (a : option Z) (b : Z) : Z :=
  match a with
  | Some n => if truthy_int n then n else b
  | None => b
  end.

Definition or_opt_string (a : option string) (b : string) : string :=
  match a with
  | Some s => if truthy_string s then s else b
  | None => b
  end.

(** An array is an object: always truthy, also when empty. *)
Definition or_opt_array {A : Type} (a : option (list A)) (b : list A) : list A :=
  match a with
  | Some l => l
  | None => b
  end.

(** [a >= b] on numbers: false as soon as one side is [NaN]. *)
Definition geb (a b : number) : bool := SFleb b a.

End JS.

(** ** Exceptions

    Every [throw] of the sources raises an [Error] with a message; the
    constructors below name the throw sites, and [TypeError] is what the
    runtime raises when a method is called on a value that lacks it. *)

Inductive exn : Type :=
| AxiosError (status : option Z) (message : string)
    (* raised by axios: transport failure, timeout or HTTP error status *)
| ApiRequestFailed (message : string)
    (* vectorizer.ts: API request failed, wraps the axios message *)
| VectorizeFailed (cause : exn)
    (* vectorizer.ts: vectorization failed, wraps any other error *)
| ResponseFormatError
    (* vectorizer.ts: the response has no [data] *)
| MissingEmbedding
    (* vectorizer.ts: an item of the response has no [embedding] *)
| EmptyApiResult
    (* vectorizer.ts: the API returned an empty result *)
| ZillizApiError (message : string)
    (* zilliz.ts: the envelope code is neither 0 nor 200 *)
| HttpError (status : option Z) (message : string)
    (* zilliz.ts: an axios error rethrown as HTTP status and message *)
| TypeError
    (* runtime: [x.includes] or [x.map] where [x] is not an array *)
| LengthMismatch
    (* knowledgeManager.ts: texts and metadatas differ in length *)
| CollectionCreateFailed
    (* knowledgeManager.ts: createCollection answered false *)
| StoreFailed
    (* knowledgeManager.ts: insertData answered false *)
| BatchStoreFailed.
    (* knowledgeManager.ts: insertData answered false for a batch *)

Inductive outcome (A : Type) : Type :=
| Ok (a : A)
| Throw (e : exn).

Arguments Ok {A} a.
Arguments Throw {A} e.

(** ** Wire formats *)

(** What axios hands back: a response body, or an [AxiosError]. *)
Inductive axios_result (A : Type) : Type :=
| Response (data : A)
| AxiosFailure (status : option Z) (message : string).

Arguments Response {A} data.
Arguments AxiosFailure {A} status message.

(** *** Qwen embeddings endpoint *)

Record EmbeddingPayload : Type := {
  payload_model : string;
  payload_input : list string;
  encoding_format : string
}.

Record EmbeddingItem : Type := {
  embedding : option (list number);
  index : Z
}.

Record QwenEmbeddingResponse : Type := {
  qwen_data : option (list EmbeddingItem);
  qwen_model : string
}.

(** *** Zilliz RESTful API *)

Record FieldSchema : Type := {
  fieldName : string;
  dataType : string;
  isPrimary : option bool;
  elementDataType : option string;
  maxLength : option Z;
  dimension : option Z
}.

Record IndexParam : Type := {
  index_fieldName : string;
  indexName : string;
  metricType : string
}.

(** Interface [KnowledgeItem] of zilliz.ts. [vector] is held optional
    because [batchVectorizeAndStore] fills it with [vectors[index]], which
    is [undefined] past the end of [vectors]. *)
Module KnowledgeItem.
Record t : Type := {
  vector : option (list number);
  text : string;
  topic : string;
  weight : number;
  title : string;
  tags : list string;
  created_at : Z
}.
End KnowledgeItem.

(** An identifier is [string | number]. *)
Inductive Id : Type :=
| IdNum (n : Z)
| IdStr (s : string).

Definition truthy_id (i : Id) : bool :=
  match i with
  | IdNum n => JS.truthy_int n
  | IdStr s => JS.truthy_string s
  end.

(** One hit of a search response as it arrives ([result: any]): each
    property the code reads may be absent. *)
Record RawHit : Type := {
  raw_id : option Id;
  raw_distance : option number;
  raw_score : option number;
  raw_text : option string;
  raw_topic : option string;
  raw_weight : option number;
  raw_created_at : option Z;
  raw_title : option string;
  raw_tags : option (list string)
}.

(** Interface [SearchResult] of zilliz.ts, as [searchSimilar] reads it:
    behind [||] every property, [id] and [distance] included, may be
    [undefined] at run time. *)
Module SearchResult.
Record t : Type := {
  id : option Id;
  distance : option number;
  text : option string;
  topic : option string;
  weight : option number;
  created_at : option Z;
  title : option string;
  tags : option (list string)
}.
End SearchResult.

Inductive http_method : Type := GET | POST | DELETE.

Inductive zbody : Type :=
| BodyEmpty
| BodyCreate (collectionName : string) (fields : list FieldSchema)
             (indexParams : list IndexParam)
| BodyInsert (collectionName : string) (data : list KnowledgeItem.t)
| BodyCollection (collectionName : string)
| BodySearch (collectionName : string) (data : list (list number))
             (annsField : string) (limit : Z) (outputFields : list string).

Record zrequest : Type := {
  path : string;
  method : http_method;
  body : zbody
}.

(** The [data] member of a Zilliz envelope, by the shapes the endpoints
    answer with. *)
Inductive zdata : Type :=
| DataNames (names : list string)
| DataHits (hits : list RawHit)
| DataInsert (insertCount : Z) (insertIds : list Id)
| DataObject.

Record ZillizResponse : Type := {
  code : Z;
  message : option string;
  data : option zdata
}.

(** What [request] returns: [result.data || result]. *)
Inductive zvalue : Type :=
| VData (d : zdata)
| VEnvelope (r : ZillizResponse).

(** ** The environment and the world *)

Inductive call : Type :=
| CallEmbeddings (payload : EmbeddingPayload)
| CallZilliz (req : zrequest).

Record Env : Type := {
  embeddings_api : list call -> EmbeddingPayload -> axios_result QwenEmbeddingResponse;
  zilliz_api : list call -> zrequest -> axios_result ZillizResponse;
  uuid_source : nat -> string;
  date_now : nat -> Z
}.

Record World : Type := {
  log : list call;
  uuids_drawn : nat;
  clock_reads : nat
}.

Definition world0 : World := {| log := []; uuids_drawn := 0; clock_reads := 0 |}.

(** ** The monad of asynchronous, throwing computations *)

Definition M (A : Type) : Type := World -> outcome A * World.

Definition ret {A : Type} (a : A) : M A := fun w => (Ok a, w).

Definition throw {A : Type} (e : exn) : M A := fun w => (Throw e, w).

Definition bind {A B : Type} (m : M A) (k : A -> M B) : M B :=
  fun w =>
    match m w with
    | (Ok a, w') => k a w'
    | (Throw e, w') => (Throw e, w')
    end.

(** [try { m } catch (error) { handler error }] *)
Definition try_catch {A : Type} (m : M A) (handler : exn -> M A) : M A :=
  fun w =>
    match m w with
    | (Ok a, w') => (Ok a, w')
    | (Throw e, w') => handler e w'
    end.

Declare Scope js_scope.
Delimit Scope js_scope with js.
Notation "x <- m ;; k" := (bind m (fun x => k))
  (at level 61, m at next level, right associativity) : js_scope.
Notation "m1 ;;; m2" := (bind m1 (fun _ => m2))
  (at level 61, right associativity) : js_scope.
Local Open Scope js_scope.

(** [Array.prototype.map] with an effectful callback, left to right. *)
Fixpoint mapM {A B : Type} (f : A -> M B) (l : list A) : M (list B) :=
  match l with
  | [] => ret []
  | a :: l' => b <- f a ;; bs <- mapM f l' ;; ret (b :: bs)
  end.

(** ** Effects: the only places where the world changes *)

Section Effects.

Variable env : Env.

Definition record_call (c : call) (w : World) : World :=
  {| log := log w ++ [c]; uuids_drawn := uuids_drawn w; clock_reads := clock_reads w |}.

(** [uuidv4()] draws the next identifier of the random source. *)
Definition uuidv4 : M string :=
  fun w =>
    (Ok (uuid_source env (uuids_drawn w)),
     {| log := log w; uuids_drawn := S (uuids_drawn w); clock_reads := clock_reads w |}).

(** [Date.now()], in milliseconds. *)
Definition Date_now : M Z :=
  fun w =>
    (Ok (date_now env (clock_reads w)),
     {| log := log w; uuids_drawn := uuids_drawn w; clock_reads := S (clock_reads w) |}).

(** [axios.post(url, payload, ...)] against the embeddings endpoint. *)
Definition axios_post_embeddings (payload : EmbeddingPayload) : M QwenEmbeddingResponse :=
  fun w =>
    let w' := record_call (CallEmbeddings payload) w in
    match embeddings_api env (log w) payload with
    | Response r => (Ok r, w')
    | AxiosFailure st msg => (Throw (AxiosError st msg), w')
    end.

(** [axios({url, method, headers, data: body, timeout})] against Zilliz. *)
Definition axios_zilliz (req : zrequest) : M ZillizResponse :=
  fun w =>
    let w' := record_call (CallZilliz req) w in
    match zilliz_api env (log w) req with
    | Response r => (Ok r, w')
    | AxiosFailure st msg => (Throw (AxiosError st msg), w')
    end.

End Effects.

(** ** Configuration

    The constructors read [process.env]: a variable is a string or is
    [undefined]. They run synchronously and throw on a missing setting. *)

Definition process_env : Type := string -> option string.

Definition truthy_opt_string (a : option string) : bool :=
  match a with
  | Some s => JS.truthy_string s
  | None => false
  end.

(** [a || b] where both sides may be [undefined]. *)
Definition or_undefined (a b : option string) : option string :=
  if truthy_opt_string a then a else b.

Inductive config_error : Type :=
| MissingApiKey
    (* vectorizer.ts: neither QWEN_API_KEY nor DASHSCOPE_API_KEY is set *)
| MissingEndpoint
    (* zilliz.ts: ZILLIZ_ENDPOINT is not set *)
| MissingCredentials.
    (* zilliz.ts: no token, no API key, no username with password *)

(** [Record<string, any>] as [getCollectionStats] returns it: the answer
    to the describe request, or the empty object. *)
Inductive stats_object : Type :=
| StatsOf (v : zvalue)
| StatsEmpty.

(** ** QwenVectorizer (vectorizer.ts) *)

Module QwenVectorizer.

Section Methods.

Variable env : Env.

Definition model : string := "text-embedding-v3".

(** The loop [for (const item of result.data)] of [callEmbeddingApi]:
    push each [item.embedding], throw at the first item without one. *)
Fixpoint collect_embeddings (items : list EmbeddingItem) (vectors : list (list number))
  : M (list (list number)) :=
  match items with
  | [] => ret vectors
  | item :: rest =>
      match embedding item with
      | Some e => collect_embeddings rest (vectors ++ [e])
      | None => throw MissingEmbedding
      end
  end.

Definition callEmbeddingApi (texts : list string) : M (list (list number)) :=
  let payload :=
    {| payload_model := model; payload_input := texts; encoding_format := "float" |} in
  try_catch
    (response <- axios_post_embeddings env payload ;;
     match qwen_data response with
     | None => throw ResponseFormatError
     | Some items => collect_embeddings items []
     end)
    (fun error =>
       match error with
       | AxiosError _ msg => throw (ApiRequestFailed msg)
       | _ => throw (VectorizeFailed error)
       end).

Definition vectorizeText (text : string) : M (list number) :=
  try_catch
    (response <- callEmbeddingApi [text] ;;
     match response with
     | v :: _ => ret v
     | [] => throw EmptyApiResult
     end)
    (fun error => throw error).

Definition vectorizeTexts (texts : list string) : M (list (list number)) :=
  try_catch (callEmbeddingApi texts) (fun error => throw error).

(** The probe text of [getVectorDimension]. *)
Definition probe_text : string := "测试".

Definition getVectorDimension : M Z :=
  try_catch
    (testVector <- vectorizeText probe_text ;;
     ret (Z.of_nat (List.length testVector)))
    (fun _ => ret 1024).

End Methods.

Record config : Type := {
  apiKey : string;
  baseUrl : string;
  config_model : string;
  headers : list (string * string)
}.

Definition default_baseUrl : string :=
  "https://dashscope.aliyuncs.com/compatible-mode/v1".

(** The constructor. *)
Definition new (env : process_env) : config_error + config :=
  let apiKey :=
    JS.or_opt_string (or_undefined (env "QWEN_API_KEY") (env "DASHSCOPE_API_KEY")) "" in
  let baseUrl := JS.or_opt_string (env "QWEN_BASE_URL") default_baseUrl in
  if negb (JS.truthy_string apiKey) then inl MissingApiKey
  else
    inr {| apiKey := apiKey;
           baseUrl := baseUrl;
           config_model := "text-embedding-v3";
           headers := [("Authorization", "Bearer " ++ apiKey);
                       ("Content-Type", "application/json")] |}.

(** The address [callEmbeddingApi] posts to. *)
Definition embeddings_url (c : config) : string := baseUrl c ++ "/embeddings".

End QwenVectorizer.

(** ** ZillizManager (zilliz.ts) *)

Module ZillizManager.

Definition default_vectorDim : Z := 768.

Definition default_description : string := "知识库向量集合".

Definition default_outputFields : list string :=
  ["text"; "topic"; "weight"; "created_at"; "title"; "tags"].

Definition list_path : string := "/v2/vectordb/collections/list".
Definition create_path : string := "/v2/vectordb/collections/create".
Definition load_path : string := "/v2/vectordb/collections/load".
Definition insert_path : string := "/v2/vectordb/entities/insert".
Definition search_path : string := "/v2/vectordb/entities/search".

Definition field (name type : string) : FieldSchema :=
  {| fieldName := name; dataType := type; isPrimary := None;
     elementDataType := None; maxLength := None; dimension := None |}.

(** The fixed schema of [createCollection]. *)
Definition fields (vectorDim : Z) : list FieldSchema :=
  [ {| fieldName := "id"; dataType := "Int64"; isPrimary := Some true;
       elementDataType := None; maxLength := None; dimension := None |};
    {| fieldName := "vector"; dataType := "FloatVector"; isPrimary := None;
       elementDataType := None; maxLength := None; dimension := Some vectorDim |};
    {| fieldName := "text"; dataType := "VarChar"; isPrimary := None;
       elementDataType := None; maxLength := Some 65535; dimension := None |};
    {| fieldName := "topic"; dataType := "VarChar"; isPrimary := None;
       elementDataType := None; maxLength := Some 500; dimension := None |};
    field "weight" "Float";
    field "created_at" "Int32";
    {| fieldName := "title"; dataType := "VarChar"; isPrimary := None;
       elementDataType := None; maxLength := Some 100; dimension := None |};
    {| fieldName := "tags"; dataType := "Array"; isPrimary := None;
       elementDataType := Some "VarChar"; maxLength := Some 100; dimension := None |} ].

Definition indexParams : list IndexParam :=
  [ {| index_fieldName := "vector"; indexName := "vector_index"; metricType := "COSINE" |} ].

(** [collections.includes(collectionName)]: membership in an array of
    names; no string is an element of an array of objects; a value that is
    not an array has no [includes]. *)
Definition includes (collections : zvalue) (collectionName : string) : M bool :=
  match collections with
  | VData (DataNames names) => ret (existsb (String.eqb collectionName) names)
  | VData (DataHits _) => ret false
  | _ => throw TypeError
  end.

(** A hit none of whose properties is present. *)
Definition no_properties : RawHit :=
  {| raw_id := None; raw_distance := None; raw_score := None; raw_text := None;
     raw_topic := None; raw_weight := None; raw_created_at := None;
     raw_title := None; raw_tags := None |}.

(** The callback of [searchResults.map] in [search]. *)
Definition formatResult (result : RawHit) : SearchResult.t :=
  {| SearchResult.id := raw_id result;
     SearchResult.distance :=
       Some (JS.or_opt_number (raw_distance result)
               (JS.or_opt_number (raw_score result) JS.zero));
     SearchResult.text := raw_text result;
     SearchResult.topic := raw_topic result;
     SearchResult.weight := raw_weight result;
     SearchResult.created_at := raw_created_at result;
     SearchResult.title := raw_title result;
     SearchResult.tags := raw_tags result |}.

(** [searchResults.map(...)]: over an array of hits; over an array of
    strings every property read is [undefined]; a value that is not an
    array has no [map]. *)
Definition map_results (searchResults : zvalue) : M (list SearchResult.t) :=
  match searchResults with
  | VData (DataHits hits) => ret (map formatResult hits)
  | VData (DataNames names) => ret (map (fun _ => formatResult no_properties) names)
  | _ => throw TypeError
  end.

Section Methods.

Variable env : Env.

Definition request (path : string) (method : http_method) (body : zbody) : M zvalue :=
  try_catch
    (result <- axios_zilliz env {| path := path; method := method; body := body |} ;;
     if negb (code result =? 0) && negb (code result =? 200)
     then throw (ZillizApiError (JS.or_opt_string (message result) "Unknown error"))
     else
       match data result with
       | Some d => ret (VData d)
       | None => ret (VEnvelope result)
       end)
    (fun error =>
       match error with
       | AxiosError status msg => throw (HttpError status msg)
       | _ => throw error
       end).

Definition listCollections : M zvalue :=
  try_catch
    (collections <- request list_path POST BodyEmpty ;;
     ret collections)
    (fun _ => ret (VData (DataNames []))).

Definition createCollection (collectionName : string) (vectorDim : Z)
  (description : string) : M bool :=
  try_catch
    (collections <- listCollections ;;
     present <- includes collections collectionName ;;
     if present then ret true
     else
       request create_path POST
         (BodyCreate collectionName (fields vectorDim) indexParams) ;;;
       ret true)
    (fun _ => ret false).

Definition loadCollection (collectionName : string) : M bool :=
  try_catch
    (collections <- listCollections ;;
     present <- includes collections collectionName ;;
     if negb present then ret false
     else
       request load_path POST (BodyCollection collectionName) ;;;
       ret true)
    (fun _ => ret false).

Definition insertData (collectionName : string) (data : list KnowledgeItem.t)
  (vectorDim : Z) : M bool :=
  try_catch
    (collections <- listCollections ;;
     present <- includes collections collectionName ;;
     created <- (if negb present
                 then createCollection collectionName vectorDim default_description
                 else ret true) ;;
     if negb created then ret false
     else
       request insert_path POST (BodyInsert collectionName data) ;;;
       loadCollection collectionName ;;;
       ret true)
    (fun _ => ret false).

Definition search (collectionName : string) (queryVector : list number) (limit : Z)
  (outputFields : option (list string)) : M (list SearchResult.t) :=
  try_catch
    (let outputFields := JS.or_opt_array outputFields default_outputFields in
     loaded <- loadCollection collectionName ;;
     if negb loaded then ret []
     else
       results <- request search_path POST
                    (BodySearch collectionName [queryVector] "vector" limit outputFields) ;;
       map_results results)
    (fun _ => ret []).

Definition describe_path : string := "/v2/vectordb/collections/describe".
Definition drop_path : string := "/v2/vectordb/collections/drop".

Definition getCollectionStats (collectionName : string) : M stats_object :=
  try_catch
    (stats <- request describe_path POST (BodyCollection collectionName) ;;
     ret (StatsOf stats))
    (fun _ => ret StatsEmpty).

Definition dropCollection (collectionName : string) : M bool :=
  try_catch
    (collections <- listCollections ;;
     present <- includes collections collectionName ;;
     if negb present then ret false
     else
       request drop_path POST (BodyCollection collectionName) ;;;
       ret true)
    (fun _ => ret false).

End Methods.

Record config : Type := {
  endpoint : string;
  token : string;
  headers : list (string * string)
}.

(** The constructor. *)
Definition new (env : process_env) : config_error + config :=
  let endpoint := JS.or_opt_string (env "ZILLIZ_ENDPOINT") "" in
  let token := or_undefined (env "ZILLIZ_TOKEN") (env "ZILLIZ_API_KEY") in
  let username := env "ZILLIZ_USERNAME" in
  let password := env "ZILLIZ_PASSWORD" in
  if negb (JS.truthy_string endpoint) then inl MissingEndpoint
  else
    let with_token (t : string) : config_error + config :=
      inr {| endpoint := endpoint;
             token := t;
             headers := [("Authorization", "Bearer " ++ t);
                         ("Accept", "application/json");
                         ("Content-Type", "application/json")] |} in
    match token with
    | Some t =>
        if JS.truthy_string t then with_token t
        else
          match username, password with
          | Some u, Some p =>
              if JS.truthy_string u && JS.truthy_string p
              then with_token (u ++ ":" ++ p)
              else inl MissingCredentials
          | _, _ => inl MissingCredentials
          end
    | None =>
        match username, password with
        | Some u, Some p =>
            if JS.truthy_string u && JS.truthy_string p
            then with_token (u ++ ":" ++ p)
            else inl MissingCredentials
        | _, _ => inl MissingCredentials
        end
    end.

(** The address [request] sends to. *)
Definition url (c : config) (path : string) : string := endpoint c ++ path.

End ZillizManager.

(** ** KnowledgeManager (knowledgeManager.ts) *)

Module Metadata.
Record t : Type := {
  topic : string;
  weight : number;
  title : string;
  tags : list string
}.
End Metadata.

Module KnowledgeSearchResult.
Record t : Type := {
  id : Id;
  text : string;
  metadata : Metadata.t;
  created_at : Z;
  similarity_score : number
}.
End KnowledgeSearchResult.

Module KnowledgeManager.

(** The fields of the class that the methods read. *)
Record t : Type := {
  collectionName : string;
  vectorDim : Z
}.

(** The constructor's synchronous part: [vectorDim] starts at 1024. *)
Definition new (collectionName : string) : t :=
  {| collectionName := collectionName; vectorDim := 1024 |}.

(** Default arguments of [searchSimilar]. *)
Definition default_limit : Z := 5.
Definition default_scoreThreshold : number := JS.zero.

Definition searchOutputFields : list string :=
  ["text"; "topic"; "weight"; "created_at"; "title"; "tags"].

(** [result.id || 'auto_generated'] *)
Definition or_id (a : option Id) (b : Id) : Id :=
  match a with
  | Some i => if truthy_id i then i else b
  | None => b
  end.

(** The score a result is filtered on and reported with: [result.distance || 0]. *)
Definition score (result : SearchResult.t) : number :=
  JS.or_opt_number (SearchResult.distance result) JS.zero.

(** The object pushed onto [filteredResults]. *)
Definition format (result : SearchResult.t) : KnowledgeSearchResult.t :=
  let metadata :=
    {| Metadata.topic := JS.or_opt_string (SearchResult.topic result) "";
       Metadata.weight := JS.or_opt_number (SearchResult.weight result) JS.one;
       Metadata.title := JS.or_opt_string (SearchResult.title result) "";
       Metadata.tags := JS.or_opt_array (SearchResult.tags result) [] |} in
  {| KnowledgeSearchResult.id := or_id (SearchResult.id result) (IdStr "auto_generated");
     KnowledgeSearchResult.text := JS.or_opt_string (SearchResult.text result) "";
     KnowledgeSearchResult.metadata := metadata;
     KnowledgeSearchResult.created_at := JS.or_opt_int (SearchResult.created_at result) 0;
     KnowledgeSearchResult.similarity_score := score result |}.

(** The loop [for (const result of results)] of [searchSimilar]. *)
Fixpoint filter_loop (results : list SearchResult.t) (scoreThreshold : number)
  (filteredResults : list KnowledgeSearchResult.t) : list KnowledgeSearchResult.t :=
  match results with
  | [] => filteredResults
  | result :: rest =>
      if JS.geb (score result) scoreThreshold
      then filter_loop rest scoreThreshold (filteredResults ++ [format result])
      else filter_loop rest scoreThreshold filteredResults
  end.

Section Methods.

Variable env : Env.

Definition createCollection (this : t) : M unit :=
  try_catch
    (success <- ZillizManager.createCollection env (collectionName this) (vectorDim this)
                  ("知识库集合 - " ++ collectionName this) ;;
     if negb success then throw CollectionCreateFailed else ret tt)
    (fun error => throw error).

Definition ensureCollectionExists (this : t) : M unit :=
  try_catch
    (collections <- ZillizManager.listCollections env ;;
     present <- ZillizManager.includes collections (collectionName this) ;;
     if negb present then createCollection this else ret tt)
    (fun error => throw error).

(** [initialize]: the manager it leaves behind carries the probed dimension. *)
Definition initialize (this : t) : M t :=
  try_catch
    (dim <- QwenVectorizer.getVectorDimension env ;;
     let this' := {| collectionName := collectionName this; vectorDim := dim |} in
     ensureCollectionExists this' ;;;
     ret this')
    (fun error => throw error).

Definition vectorizeAndStore (this : t) (text : string) (metadata : Metadata.t) : M string :=
  try_catch
    (vector <- QwenVectorizer.vectorizeText env text ;;
     now <- Date_now env ;;
     let knowledgeItem :=
       {| KnowledgeItem.vector := Some vector;
          KnowledgeItem.text := text;
          KnowledgeItem.topic := Metadata.topic metadata;
          KnowledgeItem.weight := Metadata.weight metadata;
          KnowledgeItem.title := Metadata.title metadata;
          KnowledgeItem.tags := Metadata.tags metadata;
          KnowledgeItem.created_at := now / 1000 |} in
     success <- ZillizManager.insertData env (collectionName this) [knowledgeItem]
                  (vectorDim this) ;;
     if success
     then docId <- uuidv4 env ;; ret docId
     else throw StoreFailed)
    (fun error => throw error).

Definition searchSimilar (this : t) (queryText : string) (limit : Z)
  (scoreThreshold : number) : M (list KnowledgeSearchResult.t) :=
  try_catch
    (queryVector <- QwenVectorizer.vectorizeText env queryText ;;
     results <- ZillizManager.search env (collectionName this) queryVector limit
                  (Some searchOutputFields) ;;
     ret (filter_loop results scoreThreshold []))
    (fun error => throw error).

(** The callback of [texts.map((text, index) => ...)] that builds one item;
    [metadatas[index]] exists because the lengths were compared first. *)
Fixpoint build_items (texts : list string) (index : nat) (vectors : list (list number))
  (metadatas : list Metadata.t) : M (list KnowledgeItem.t) :=
  match texts with
  | [] => ret []
  | text :: rest =>
      match nth_error metadatas index with
      | None => throw TypeError
      | Some metadata =>
          now <- Date_now env ;;
          let knowledgeItem :=
            {| KnowledgeItem.vector := nth_error vectors index;
               KnowledgeItem.text := text;
               KnowledgeItem.topic := Metadata.topic metadata;
               KnowledgeItem.weight := Metadata.weight metadata;
               KnowledgeItem.title := Metadata.title metadata;
               KnowledgeItem.tags := Metadata.tags metadata;
               KnowledgeItem.created_at := now / 1000 |} in
          items <- build_items rest (S index) vectors metadatas ;;
          ret (knowledgeItem :: items)
      end
  end.

Definition batchVectorizeAndStore (this : t) (texts : list string)
  (metadatas : list Metadata.t) : M (list string) :=
  if negb (Nat.eqb (List.length texts) (List.length metadatas))
  then throw LengthMismatch
  else
    try_catch
      (vectors <- QwenVectorizer.vectorizeTexts env texts ;;
       knowledgeItems <- build_items texts 0 vectors metadatas ;;
       success <- ZillizManager.insertData env (collectionName this) knowledgeItems
                    (vectorDim this) ;;
       if success
       then mapM (fun _ => uuidv4 env) texts
       else throw BatchStoreFailed)
      (fun error => throw error).

Record CollectionInfo : Type := {
  collection_name : string;
  vector_dimension : Z;
  stats : stats_object
}.

Definition getCollectionInfo (this : t) : M CollectionInfo :=
  try_catch
    (stats <- ZillizManager.getCollectionStats env (collectionName this) ;;
     ret {| collection_name := collectionName this;
            vector_dimension := vectorDim this;
            stats := stats |})
    (fun _ =>
       ret {| collection_name := collectionName this;
              vector_dimension := vectorDim this;
              stats := StatsEmpty |}).

End Methods.

End KnowledgeManager.

(** ** Sample environments

    Concrete services on which the methods can be run. *)

Module Samples.

Definition half : number := S754_finite false 4503599627370496 (-53).

Definition sample_vector : list number := [JS.one; half; JS.zero].

Definition item_of (v : list number) (i : Z) : EmbeddingItem :=
  {| embedding := Some v; index := i |}.

Definition uuids (n : nat) : string :=
  "doc-" ++ String.concat "" (repeat "i" n).

Definition clock (n : nat) : Z := 1700000000000 + Z.of_nat n.

(** A Qwen service that answers one embedding per input text, in order. *)
Fixpoint embed_all (texts : list string) (i : Z) : list EmbeddingItem :=
  match texts with
  | [] => []
  | _ :: rest => item_of sample_vector i :: embed_all rest (i + 1)
  end.

Definition qwen_faithful (_ : list call) (p : EmbeddingPayload)
  : axios_result QwenEmbeddingResponse :=
  Response {| qwen_data := Some (embed_all (payload_input p) 0);
              qwen_model := payload_model p |}.

(** A Qwen service that answers a single item whatever the input. *)
Definition qwen_single (_ : list call) (p : EmbeddingPayload)
  : axios_result QwenEmbeddingResponse :=
  Response {| qwen_data := Some [item_of sample_vector 0];
              qwen_model := payload_model p |}.

Definition qwen_down (_ : list call) (_ : EmbeddingPayload)
  : axios_result QwenEmbeddingResponse :=
  AxiosFailure None "timeout of 30000ms exceeded".

Definition success (d : option zdata) : axios_result ZillizResponse :=
  Response {| code := 0; message := None; data := d |}.

Definition hit (i : Z) (d : number) (t : string) : RawHit :=
  {| raw_id := Some (IdNum i); raw_distance := Some d; raw_score := None;
     raw_text := Some t; raw_topic := Some "topic"; raw_weight := Some JS.one;
     raw_created_at := Some 1700000000; raw_title := Some "title";
     raw_tags := Some ["tag"] |}.

(** A Zilliz service holding the collection [kb]: every call succeeds; the
    insert receipt carries the identifiers [ids]. *)
Definition zilliz_kb (ids : list Id) (hits : list RawHit) (_ : list call) (req : zrequest)
  : axios_result ZillizResponse :=
  if String.eqb (path req) ZillizManager.list_path then success (Some (DataNames ["kb"]))
  else if String.eqb (path req) ZillizManager.insert_path
       then success (Some (DataInsert (Z.of_nat (List.length ids)) ids))
  else if String.eqb (path req) ZillizManager.search_path then success (Some (DataHits hits))
  else success (Some DataObject).

(** The same service, except that loading a collection fails. *)
Definition zilliz_load_fails (ids : list Id) (hits : list RawHit) (h : list call)
  (req : zrequest) : axios_result ZillizResponse :=
  if String.eqb (path req) ZillizManager.load_path
  then AxiosFailure (Some 500) "Internal Server Error"
  else zilliz_kb ids hits h req.

(** The same service, except that searching fails. *)
Definition zilliz_search_fails (ids : list Id) (hits : list RawHit) (h : list call)
  (req : zrequest) : axios_result ZillizResponse :=
  if String.eqb (path req) ZillizManager.search_path
  then AxiosFailure (Some 503) "Service Unavailable"
  else zilliz_kb ids hits h req.

(** A Zilliz service with no collection at all. *)
Definition zilliz_empty (_ : list call) (req : zrequest) : axios_result ZillizResponse :=
  if String.eqb (path req) ZillizManager.list_path then success (Some (DataNames []))
  else success (Some DataObject).

Definition zilliz_down (_ : list call) (_ : zrequest) : axios_result ZillizResponse :=
  AxiosFailure None "Network Error".

Definition mkEnv (q : list call -> EmbeddingPayload -> axios_result QwenEmbeddingResponse)
  (z : list call -> zrequest -> axios_result ZillizResponse) : Env :=
  {| embeddings_api := q; zilliz_api := z; uuid_source := uuids; date_now := clock |}.

Definition sample_hits : list RawHit :=
  [hit 1 JS.one "first"; hit 2 half "second"; hit 3 JS.zero "third"].

Definition sample_metadata : Metadata.t :=
  {| Metadata.topic := "topic"; Metadata.weight := JS.one;
     Metadata.title := "title"; Metadata.tags := ["tag"] |}.

Definition kb : KnowledgeManager.t := KnowledgeManager.new "kb".

(** A hit that carries a [score] and no [distance]. *)
Definition hit_scored : RawHit :=
  {| raw_id := Some (IdNum 9); raw_distance := None; raw_score := Some half;
     raw_text := Some "scored"; raw_topic := Some "topic"; raw_weight := Some JS.one;
     raw_created_at := Some 1700000000; raw_title := Some "title";
     raw_tags := Some ["tag"] |}.

(** A Qwen service whose second item lacks its embedding. *)
Definition qwen_gap (_ : list call) (p : EmbeddingPayload)
  : axios_result QwenEmbeddingResponse :=
  Response {| qwen_data := Some [item_of sample_vector 0;
                                 {| embedding := None; index := 1 |}];
              qwen_model := payload_model p |}.

(** Process environments. *)
Definition penv_of (bindings : list (string * string)) : process_env :=
  fun key =>
    match find (fun kv => String.eqb (fst kv) key) bindings with
    | Some kv => Some (snd kv)
    | None => None
    end.

Definition penv_token : process_env :=
  penv_of [("ZILLIZ_ENDPOINT", "https://cluster.example");
           ("ZILLIZ_TOKEN", "token-1");
           ("ZILLIZ_API_KEY", "key-1");
           ("ZILLIZ_USERNAME", "user");
           ("ZILLIZ_PASSWORD", "secret");
           ("DASHSCOPE_API_KEY", "dash-1")].

Definition penv_password : process_env :=
  penv_of [("ZILLIZ_ENDPOINT", "https://cluster.example");
           ("ZILLIZ_TOKEN", "");
           ("ZILLIZ_USERNAME", "user");
           ("ZILLIZ_PASSWORD", "secret");
           ("QWEN_API_KEY", "qwen-1");
           ("DASHSCOPE_API_KEY", "dash-1");
           ("QWEN_BASE_URL", "https://proxy.example/v1")].

End Samples.

(** ** Vocabulary of the statements *)

(** The embeddings of the items of a response, when each item has one. *)
Fixpoint embeddings_of (items : list EmbeddingItem) : option (list (list number)) :=
  match items with
  | [] => Some []
  | item :: rest =>
      match embedding item, embeddings_of rest with
      | Some e, Some es => Some (e :: es)
      | _, _ => None
      end
  end.

(** The one request body [callEmbeddingApi] builds for a batch. *)
Definition embedding_payload (texts : list string) : EmbeddingPayload :=
  {| payload_model := QwenVectorizer.model; payload_input := texts;
     encoding_format := "float" |}.

(** The requests [ZillizManager] sends. *)
Definition zreq (p : string) (m : http_method) (b : zbody) : zrequest :=
  {| path := p; method := m; body := b |}.

Definition list_request : zrequest := zreq ZillizManager.list_path POST BodyEmpty.

Definition load_request (name : string) : zrequest :=
  zreq ZillizManager.load_path POST (BodyCollection name).

Definition search_body (name : string) (queryVector : list number) (limit : Z)
  (outputFields : option (list string)) : zbody :=
  BodySearch name [queryVector] "vector" limit
    (JS.or_opt_array outputFields ZillizManager.default_outputFields).

(** An envelope whose code [request] accepts: 0 or 200. *)
Definition acknowledged (r : ZillizResponse) : bool :=
  (code r =? 0) || (code r =? 200).

(** The collection [name] was loaded along [calls], made after [history]:
    a load request for it was sent and the service acknowledged it. *)
Fixpoint load_acknowledged (env : Env) (history calls : list call) (name : string) : bool :=
  match calls with
  | [] => false
  | c :: rest =>
      match c with
      | CallZilliz req =>
          String.eqb (path req) ZillizManager.load_path &&
          match body req with
          | BodyCollection n => String.eqb n name
          | _ => false
          end &&
          match zilliz_api env history req with
          | Response r => acknowledged r
          | AxiosFailure _ _ => false
          end
      | CallEmbeddings _ => false
      end
      || load_acknowledged env (history ++ [c]) rest name
  end.

(** The test of the loop of [searchSimilar]: the score is at or above the
    threshold. *)
Definition kept (scoreThreshold : number) (result : SearchResult.t) : bool :=
  JS.geb (KnowledgeManager.score result) scoreThreshold.

(** Descending order, on underlying results and on returned objects. *)
Definition score_descending (a b : SearchResult.t) : Prop :=
  JS.geb (KnowledgeManager.score a) (KnowledgeManager.score b) = true.

(** Descending order of the [distance] that [ZillizManager.search] reports. *)
Definition distance_descending (a b : SearchResult.t) : Prop :=
  match SearchResult.distance a, SearchResult.distance b with
  | Some x, Some y => JS.geb x y = true
  | _, _ => False
  end.

Definition similarity_descending (a b : KnowledgeSearchResult.t) : Prop :=
  JS.geb (KnowledgeSearchResult.similarity_score a)
         (KnowledgeSearchResult.similarity_score b) = true.

(** An answer of the database that [request] takes for a success. *)
Definition reports_success (a : axios_result ZillizResponse) : bool :=
  match a with
  | Response r => acknowledged r
  | AxiosFailure _ _ => false
  end.

(** Two environments that differ at most in what the database answers to
    insert requests, and there only between answers that report success:
    the receipts, with the identifiers the database assigned, may differ. *)
Definition differ_in_insert_receipts (e1 e2 : Env) : Prop :=
  (forall h p, embeddings_api e1 h p = embeddings_api e2 h p) /\
  (forall n, uuid_source e1 n = uuid_source e2 n) /\
  (forall n, date_now e1 n = date_now e2 n) /\
  (forall h req,
      zilliz_api e1 h req = zilliz_api e2 h req \/
      (path req = ZillizManager.insert_path /\
       reports_success (zilliz_api e1 h req) = true /\
       reports_success (zilliz_api e2 h req) = true)).

(** A computation that draws no identifier. *)
Definition draws_no_uuid {A : Type} (m : M A) : Prop :=
  forall w : World, uuids_drawn (snd (m w)) = uuids_drawn w.

(** *** Requests and answers *)

Definition create_request (name : string) (vectorDim : Z) : zrequest :=
  zreq ZillizManager.create_path POST
    (BodyCreate name (ZillizManager.fields vectorDim) ZillizManager.indexParams).

Definition insert_request (name : string) (items : list KnowledgeItem.t) : zrequest :=
  zreq ZillizManager.insert_path POST (BodyInsert name items).

Definition search_request (name : string) (queryVector : list number) (limit : Z)
  (outputFields : option (list string)) : zrequest :=
  zreq ZillizManager.search_path POST (search_body name queryVector limit outputFields).

Definition describe_request (name : string) : zrequest :=
  zreq ZillizManager.describe_path POST (BodyCollection name).

Definition drop_request (name : string) : zrequest :=
  zreq ZillizManager.drop_path POST (BodyCollection name).

(** The value [request] returns for an acknowledged envelope. *)
Definition value_of (r : ZillizResponse) : zvalue :=
  match data r with
  | Some d => VData d
  | None => VEnvelope r
  end.

(** What [listCollections] returns after the calls of [history]: the
    answer of the service, or the empty array when the request fails. *)
Definition list_answer (env : Env) (history : list call) : zvalue :=
  match zilliz_api env history list_request with
  | Response r => if acknowledged r then value_of r else VData (DataNames [])
  | AxiosFailure _ _ => VData (DataNames [])
  end.

(** [collections.includes(name)] as a value: [None] when it throws. *)
Definition names_include (collections : zvalue) (name : string) : option bool :=
  match collections with
  | VData (DataNames names) => Some (existsb (String.eqb name) names)
  | VData (DataHits _) => Some false
  | _ => None
  end.

(** Whether the database acknowledges [req] after the calls of [history]. *)
Definition acknowledges (env : Env) (history : list call) (req : zrequest) : bool :=
  reports_success (zilliz_api env history req).

(** The item [vectorizeAndStore] builds. *)
Definition item_of_store (v : option (list number)) (text : string)
  (metadata : Metadata.t) (now : Z) : KnowledgeItem.t :=
  {| KnowledgeItem.vector := v;
     KnowledgeItem.text := text;
     KnowledgeItem.topic := Metadata.topic metadata;
     KnowledgeItem.weight := Metadata.weight metadata;
     KnowledgeItem.title := Metadata.title metadata;
     KnowledgeItem.tags := Metadata.tags metadata;
     KnowledgeItem.created_at := now / 1000 |}.

(** The results [search] builds from the value of the search request. *)
Definition results_of (v : zvalue) : list SearchResult.t :=
  match v with
  | VData (DataHits hits) => map ZillizManager.formatResult hits
  | VData (DataNames names) =>
      map (fun _ => ZillizManager.formatResult ZillizManager.no_properties) names
  | _ => []
  end.

(** The world in which [insertData] sends its insert request, when it
    gets that far: after the list request when the collection is listed,
    after a successful [createCollection] when it is not. *)
Definition ready_to_insert (env : Env) (name : string) (dim : Z) (w : World)
  : option World :=
  let w1 := record_call (CallZilliz list_request) w in
  match names_include (list_answer env (log w)) name with
  | Some true => Some w1
  | Some false =>
      match ZillizManager.createCollection env name dim
              ZillizManager.default_description w1 with
      | (Ok true, w2) => Some w2
      | _ => None
      end
  | None => None
  end.

(** An optional number that is present and truthy, and its value. *)
Definition truthy_opt_number (a : option number) : bool :=
  match a with
  | Some x => JS.truthy_number x
  | None => false
  end.

Definition or_zero (a : option number) : number :=
  match a with
  | Some x => x
  | None => JS.zero
  end.

(** The value of an environment variable that is set and not empty. *)
Definition env_value (a : option string) : string := JS.or_opt_string a "".

(** What the object [o] returned for the hit [hit] holds, field by field:
    the default where the hit lacks the property, the property itself where
    it is present and truthy. *)
Definition fills_missing_fields (hit : RawHit) (o : KnowledgeSearchResult.t) : Prop :=
  (raw_id hit = None -> KnowledgeSearchResult.id o = IdStr "auto_generated") /\
  (forall i : Id, raw_id hit = Some i ->
     KnowledgeSearchResult.id o = if truthy_id i then i else IdStr "auto_generated") /\
  (raw_text hit = None -> KnowledgeSearchResult.text o = "") /\
  (forall s : string, raw_text hit = Some s -> KnowledgeSearchResult.text o = s) /\
  (raw_topic hit = None -> Metadata.topic (KnowledgeSearchResult.metadata o) = "") /\
  (forall s : string, raw_topic hit = Some s ->
     Metadata.topic (KnowledgeSearchResult.metadata o) = s) /\
  (raw_title hit = None -> Metadata.title (KnowledgeSearchResult.metadata o) = "") /\
  (forall s : string, raw_title hit = Some s ->
     Metadata.title (KnowledgeSearchResult.metadata o) = s) /\
  (raw_weight hit = None ->
     Metadata.weight (KnowledgeSearchResult.metadata o) = JS.one) /\
  (forall x : number, raw_weight hit = Some x ->
     Metadata.weight (KnowledgeSearchResult.metadata o) =
       if JS.truthy_number x then x else JS.one) /\
  (raw_tags hit = None -> Metadata.tags (KnowledgeSearchResult.metadata o) = []) /\
  (forall l : list string, raw_tags hit = Some l ->
     Metadata.tags (KnowledgeSearchResult.metadata o) = l) /\
  (raw_created_at hit = None -> KnowledgeSearchResult.created_at o = 0) /\
  (forall n : Z, raw_created_at hit = Some n -> KnowledgeSearchResult.created_at o = n) /\
  (forall d : number, raw_distance hit = Some d -> JS.truthy_number d = true ->
     KnowledgeSearchResult.similarity_score o = d) /\
  (truthy_opt_number (raw_distance hit) = false ->
   forall s : number, raw_score hit = Some s -> JS.truthy_number s = true ->
     KnowledgeSearchResult.similarity_score o = s) /\
  (truthy_opt_number (raw_distance hit) = false ->
   truthy_opt_number (raw_score hit) = false ->
     KnowledgeSearchResult.similarity_score o = JS.zero).

(** *** Traces *)

(** The calls a computation adds to the log all satisfy [P]. *)
Definition logs_only {A : Type} (P : call -> Prop) (m : M A) : Prop :=
  forall w : World,
    exists calls : list call,
      log (snd (m w)) = (log w ++ calls)%list /\ Forall P calls.

(** A call that reads: the embeddings endpoint, or a list, load or search
    request to the database. *)
Definition reads_only (c : call) : Prop :=
  match c with
  | CallEmbeddings _ => True
  | CallZilliz req =>
      path req = ZillizManager.list_path \/
      path req = ZillizManager.load_path \/
      path req = ZillizManager.search_path
  end.

(** A call that concerns the collection [name] alone: the embeddings
    endpoint, the list of collections, or a request whose body names
    [name]. *)
Definition concerns (name : string) (c : call) : Prop :=
  match c with
  | CallEmbeddings _ => True
  | CallZilliz req =>
      match body req with
      | BodyEmpty => True
      | BodyCreate n _ _ => n = name
      | BodyInsert n _ => n = name
      | BodyCollection n => n = name
      | BodySearch n _ _ _ _ => n = name
      end
  end.

(** A call that is not a drop request. *)
Definition never_drops (c : call) : Prop :=
  match c with
  | CallEmbeddings _ => True
  | CallZilliz req => path req <> ZillizManager.drop_path
  end.

(** A call a store may make: the embeddings endpoint, or a list, create,
    insert or load request to the database. *)
Definition stores_only (c : call) : Prop :=
  match c with
  | CallEmbeddings _ => True
  | CallZilliz req =>
      path req = ZillizManager.list_path \/
      path req = ZillizManager.create_path \/
      path req = ZillizManager.insert_path \/
      path req = ZillizManager.load_path
  end.

(** A number below zero. *)
Definition negative (x : number) : bool :=
  match x with
  | S754_finite true _ _ | S754_infinity true => true
  | _ => false
  end.

(** * Properties *)

Unset Implicit Arguments.

(** ** The order on numbers *)

Ltac cmp_cases :=
  repeat match goal with
  | |- context [Z.compare ?a ?b] => destruct (Z.compare_spec a b)
  | |- context [Pos.compare ?a ?b] => destruct (Pos.compare_spec a b)
  end.

Lemma SFleb_trans (x y z : number) :
  SFleb x y = true -> SFleb y z = true -> SFleb x z = true.
Proof.
  unfold SFleb, SFcompare.
  destruct x as [sx|sx| |sx mx ex], y as [sy|sy| |sy my ey], z as [sz|sz| |sz mz ez];
    try (destruct sx); try (destruct sy); try (destruct sz);
    try reflexivity; try discriminate.
  all: change (Pos.compare_cont Eq) with Pos.compare.
  all: cmp_cases; simpl; intros; subst; try reflexivity; try discriminate; try lia.
Qed.

Lemma SFleb_refl (x : number) : x <> S754_nan -> SFleb x x = true.
Proof.
  unfold SFleb, SFcompare.
  destruct x as [s|s| |s m e]; try destruct s; try reflexivity; try congruence.
  all: intros _; change (Pos.compare_cont Eq) with Pos.compare;
    rewrite Z.compare_refl, Pos.compare_refl; reflexivity.
Qed.

Lemma geb_trans (x y z : number) :
  JS.geb x y = true -> JS.geb y z = true -> JS.geb x z = true.
Proof. unfold JS.geb. intros Hxy Hyz. exact (SFleb_trans _ _ _ Hyz Hxy). Qed.

(** [a || 0] is never [NaN]. *)
Lemma or_opt_number_zero_not_nan (a : option number) :
  JS.or_opt_number a JS.zero <> S754_nan.
Proof.
  destruct a as [x|]; simpl; [|discriminate].
  unfold JS.or_number. destruct x; simpl; discriminate.
Qed.

(** A score compares at or above itself. *)
Lemma geb_score_refl (r : SearchResult.t) :
  JS.geb (KnowledgeManager.score r) (KnowledgeManager.score r) = true.
Proof. apply SFleb_refl. apply or_opt_number_zero_not_nan. Qed.

(** [x || 0] only merges the zeros and [NaN] into [+0]: it keeps the order. *)
Lemma or_number_zero_monotone (x y : number) :
  JS.geb x y = true -> JS.geb (JS.or_number x JS.zero) (JS.or_number y JS.zero) = true.
Proof.
  unfold JS.geb, JS.or_number, JS.zero.
  destruct x as [sx|sx| |sx mx ex], y as [sy|sy| |sy my ey]; simpl;
    try discriminate; try (intros H; exact H); reflexivity.
Qed.

(** ** Running computations *)

(** A handler that rethrows leaves the computation as it is. *)
Lemma try_catch_rethrow {A : Type} (m : M A) (w : World) :
  try_catch m (fun error => throw error) w = m w.
Proof. unfold try_catch, throw. destruct (m w) as [[a|e] w']; reflexivity. Qed.

(** ** QwenVectorizer *)

Lemma embeddings_of_Some (items : list EmbeddingItem) (vectors : list (list number)) :
  embeddings_of items = Some vectors -> map embedding items = map Some vectors.
Proof.
  revert vectors. induction items as [|item rest IH]; intros vectors H; simpl in *.
  - inversion H. reflexivity.
  - destruct (embedding item) as [e|] eqn:He; [|discriminate].
    destruct (embeddings_of rest) as [es|]; [|discriminate].
    inversion H; subst. simpl. rewrite (IH es eq_refl). reflexivity.
Qed.

Lemma collect_embeddings_spec (items : list EmbeddingItem) (acc : list (list number))
  (w : World) :
  QwenVectorizer.collect_embeddings items acc w =
  match embeddings_of items with
  | Some vectors => (Ok (acc ++ vectors)%list, w)
  | None => (Throw MissingEmbedding, w)
  end.
Proof.
  revert acc. induction items as [|item rest IH]; intros acc; simpl.
  - rewrite app_nil_r. reflexivity.
  - destruct (embedding item) as [e|]; [|reflexivity].
    rewrite IH. destruct (embeddings_of rest) as [es|]; [|reflexivity].
    rewrite <- app_assoc. reflexivity.
Qed.

(** What [callEmbeddingApi] does, by the answer of the service. *)
Lemma callEmbeddingApi_spec (env : Env) (texts : list string) (w : World) :
  QwenVectorizer.callEmbeddingApi env texts w =
  (match embeddings_api env (log w) (embedding_payload texts) with
   | AxiosFailure _ msg => Throw (ApiRequestFailed msg)
   | Response r =>
       match qwen_data r with
       | None => Throw (VectorizeFailed ResponseFormatError)
       | Some items =>
           match embeddings_of items with
           | Some vectors => Ok vectors
           | None => Throw (VectorizeFailed MissingEmbedding)
           end
       end
   end,
   record_call (CallEmbeddings (embedding_payload texts)) w).
Proof.
  unfold QwenVectorizer.callEmbeddingApi, try_catch, bind, axios_post_embeddings.
  fold (embedding_payload texts).
  destruct (embeddings_api env (log w) (embedding_payload texts)) as [r|st msg];
    [|reflexivity].
  destruct (qwen_data r) as [items|]; [|reflexivity].
  rewrite collect_embeddings_spec.
  destruct (embeddings_of items); reflexivity.
Qed.

Lemma vectorizeTexts_spec (env : Env) (texts : list string) (w : World) :
  QwenVectorizer.vectorizeTexts env texts w = QwenVectorizer.callEmbeddingApi env texts w.
Proof. apply try_catch_rethrow. Qed.

(** C1 (the code against the claim): [callEmbeddingApi] pushes one vector per
    item of the response and never compares their number with the number of
    texts, although both methods document that each vector corresponds to an
    input text. Against a service that answers a single item, a batch of two
    texts is embedded by one call, as claimed, and [vectorizeTexts] returns
    normally with one vector. *)
Theorem vectorizeTexts_short_answer_unchecked :
  let env := Samples.mkEnv Samples.qwen_single Samples.zilliz_down in
  QwenVectorizer.vectorizeTexts env ["first"; "second"] world0 =
    (Ok [Samples.sample_vector],
     record_call (CallEmbeddings (embedding_payload ["first"; "second"])) world0) /\
  List.length [Samples.sample_vector] <> List.length ["first"; "second"].
Proof.
  intros env. split; [reflexivity|]. simpl. discriminate.
Qed.

(** What [vectorizeText] does, by the answer of the service. *)
Lemma vectorizeText_spec (env : Env) (text : string) (w : World) :
  QwenVectorizer.vectorizeText env text w =
  (match embeddings_api env (log w) (embedding_payload [text]) with
   | AxiosFailure _ msg => Throw (ApiRequestFailed msg)
   | Response r =>
       match qwen_data r with
       | None => Throw (VectorizeFailed ResponseFormatError)
       | Some items =>
           match embeddings_of items with
           | Some (v :: _) => Ok v
           | Some [] => Throw EmptyApiResult
           | None => Throw (VectorizeFailed MissingEmbedding)
           end
       end
   end,
   record_call (CallEmbeddings (embedding_payload [text])) w).
Proof.
  unfold QwenVectorizer.vectorizeText. rewrite try_catch_rethrow.
  unfold bind. rewrite callEmbeddingApi_spec.
  destruct (embeddings_api env (log w) (embedding_payload [text])) as [r|st msg];
    [|reflexivity].
  destruct (qwen_data r) as [items|]; [|reflexivity].
  destruct (embeddings_of items) as [[|v vs]|]; reflexivity.
Qed.

(** C7: [getVectorDimension] never throws. When the probe [vectorizeText]
    fails, and in particular when the remote embedding call fails, it
    returns the default 1024; when the probe succeeds it returns the length
    of the probe's vector. *)
Theorem getVectorDimension_default_on_failure (env : Env) (w : World) :
  (forall (e : exn) (w' : World),
      QwenVectorizer.vectorizeText env QwenVectorizer.probe_text w = (Throw e, w') ->
      QwenVectorizer.getVectorDimension env w = (Ok 1024, w')) /\
  (forall (status : option Z) (msg : string),
      embeddings_api env (log w) (embedding_payload [QwenVectorizer.probe_text]) =
        AxiosFailure status msg ->
      fst (QwenVectorizer.getVectorDimension env w) = Ok 1024) /\
  (forall (testVector : list number) (w' : World),
      QwenVectorizer.vectorizeText env QwenVectorizer.probe_text w = (Ok testVector, w') ->
      QwenVectorizer.getVectorDimension env w =
        (Ok (Z.of_nat (List.length testVector)), w')) /\
  (exists (dim : Z) (w' : World), QwenVectorizer.getVectorDimension env w = (Ok dim, w')).
Proof.
  unfold QwenVectorizer.getVectorDimension, try_catch, bind, ret.
  repeat split.
  - intros e w' ->. reflexivity.
  - intros status msg H. rewrite vectorizeText_spec, H. reflexivity.
  - intros v w' ->. reflexivity.
  - destruct (QwenVectorizer.vectorizeText env QwenVectorizer.probe_text w)
      as [[v|e] w']; eauto.
Qed.

(** Witness of C7: the service is down, then the service answers a vector
    of three components. *)
Lemma getVectorDimension_default_on_failure_witness :
  fst (QwenVectorizer.getVectorDimension
         (Samples.mkEnv Samples.qwen_down Samples.zilliz_down) world0) = Ok 1024 /\
  fst (QwenVectorizer.getVectorDimension
         (Samples.mkEnv Samples.qwen_faithful Samples.zilliz_down) world0) = Ok 3.
Proof.
  split.
  - exact (proj1 (proj2 (getVectorDimension_default_on_failure
                           (Samples.mkEnv Samples.qwen_down Samples.zilliz_down) world0))
                 None "timeout of 30000ms exceeded" eq_refl).
  - exact (f_equal fst
             (proj1 (proj2 (proj2 (getVectorDimension_default_on_failure
                (Samples.mkEnv Samples.qwen_faithful Samples.zilliz_down) world0)))
                Samples.sample_vector _ eq_refl)).
Defined.

(** ** KnowledgeManager: validation *)

(** C2: when [texts] and [metadatas] differ in length,
    [batchVectorizeAndStore] throws the length-mismatch error and leaves the
    world as it found it: no call reaches the embedding service or the
    database, no identifier is drawn and the clock is not read. *)
Theorem batchVectorizeAndStore_length_mismatch
  (env : Env) (this : KnowledgeManager.t) (texts : list string)
  (metadatas : list Metadata.t) (w : World) :
  List.length texts <> List.length metadatas ->
  KnowledgeManager.batchVectorizeAndStore env this texts metadatas w =
    (Throw LengthMismatch, w).
Proof.
  intros Hlen. unfold KnowledgeManager.batchVectorizeAndStore.
  destruct (Nat.eqb_spec (List.length texts) (List.length metadatas)) as [Heq|_].
  - contradiction.
  - reflexivity.
Qed.

(** Witness of C2: two texts, one metadata. *)
Lemma batchVectorizeAndStore_length_mismatch_witness :
  KnowledgeManager.batchVectorizeAndStore
    (Samples.mkEnv Samples.qwen_faithful (Samples.zilliz_kb [] []))
    Samples.kb ["first"; "second"] [Samples.sample_metadata] world0 =
    (Throw LengthMismatch, world0).
Proof.
  apply batchVectorizeAndStore_length_mismatch. simpl. discriminate.
Defined.

(** ** ZillizManager *)

(** A [try] whose [catch] returns a value always returns. *)
Lemma try_catch_ret_total {A : Type} (m : M A) (d : A) (w : World) :
  exists (a : A) (w' : World), try_catch m (fun _ => ret d) w = (Ok a, w').
Proof.
  unfold try_catch, ret. destruct (m w) as [[a|e] w']; eauto.
Qed.

(** What [request] does, by the answer of the service. *)
Lemma request_spec (env : Env) (p : string) (m : http_method) (b : zbody) (w : World) :
  ZillizManager.request env p m b w =
  (match zilliz_api env (log w) (zreq p m b) with
   | AxiosFailure status msg => Throw (HttpError status msg)
   | Response r =>
       if acknowledged r
       then Ok (match data r with Some d => VData d | None => VEnvelope r end)
       else Throw (ZillizApiError (JS.or_opt_string (message r) "Unknown error"))
   end,
   record_call (CallZilliz (zreq p m b)) w).
Proof.
  unfold ZillizManager.request, try_catch, bind, axios_zilliz, acknowledged, zreq.
  destruct (zilliz_api env (log w) {| path := p; method := m; body := b |}) as [r|st msg];
    [|reflexivity].
  destruct (code r =? 0), (code r =? 200); simpl; try reflexivity;
    destruct (data r); reflexivity.
Qed.

(** [listCollections] makes one call and never throws. *)
Lemma listCollections_spec (env : Env) (w : World) :
  ZillizManager.listCollections env w =
  (Ok (match fst (ZillizManager.request env ZillizManager.list_path POST BodyEmpty w) with
       | Ok collections => collections
       | Throw _ => VData (DataNames [])
       end),
   record_call (CallZilliz list_request) w).
Proof.
  unfold ZillizManager.listCollections, try_catch, bind, ret.
  rewrite request_spec. fold list_request.
  destruct (zilliz_api env (log w) list_request) as [r|st msg]; [|reflexivity].
  destruct (acknowledged r); reflexivity.
Qed.

Lemma search_total (env : Env) (name : string) (queryVector : list number) (limit : Z)
  (outputFields : option (list string)) (w : World) :
  exists (results : list SearchResult.t) (w' : World),
    ZillizManager.search env name queryVector limit outputFields w = (Ok results, w').
Proof. apply try_catch_ret_total. Qed.

(** A collection that the list does not name is not loaded, and no load
    request is sent for it. *)
Lemma loadCollection_absent (env : Env) (name : string) (names : list string)
  (w w1 : World) :
  ZillizManager.listCollections env w = (Ok (VData (DataNames names)), w1) ->
  existsb (String.eqb name) names = false ->
  ZillizManager.loadCollection env name w = (Ok false, w1).
Proof.
  intros Hlist Habsent.
  unfold ZillizManager.loadCollection, try_catch, bind.
  rewrite Hlist. simpl. unfold ret. rewrite Habsent. reflexivity.
Qed.

(** C4: [search] never throws. It returns the empty list when the
    collection cannot be loaded, in particular when the collection list does
    not name it, and when the collection is loaded but the search request
    fails. *)
Theorem search_soft_fails
  (env : Env) (name : string) (queryVector : list number) (limit : Z)
  (outputFields : option (list string)) (w : World) :
  (exists (results : list SearchResult.t) (w' : World),
      ZillizManager.search env name queryVector limit outputFields w = (Ok results, w')) /\
  (forall w1 : World,
      ZillizManager.loadCollection env name w = (Ok false, w1) ->
      ZillizManager.search env name queryVector limit outputFields w = (Ok [], w1)) /\
  (forall (names : list string) (w1 : World),
      ZillizManager.listCollections env w = (Ok (VData (DataNames names)), w1) ->
      existsb (String.eqb name) names = false ->
      ZillizManager.search env name queryVector limit outputFields w = (Ok [], w1)) /\
  (forall (w1 w2 : World) (e : exn),
      ZillizManager.loadCollection env name w = (Ok true, w1) ->
      ZillizManager.request env ZillizManager.search_path POST
        (search_body name queryVector limit outputFields) w1 = (Throw e, w2) ->
      ZillizManager.search env name queryVector limit outputFields w = (Ok [], w2)).
Proof.
  assert (Hfalse : forall w1 : World,
      ZillizManager.loadCollection env name w = (Ok false, w1) ->
      ZillizManager.search env name queryVector limit outputFields w = (Ok [], w1)).
  { intros w1 Hload. unfold ZillizManager.search, try_catch, bind.
    rewrite Hload. reflexivity. }
  split; [apply search_total|].
  split; [exact Hfalse|].
  split.
  - intros names w1 Hlist Habsent. apply Hfalse.
    eapply loadCollection_absent; eassumption.
  - intros w1 w2 e Hload Hreq.
    unfold ZillizManager.search, try_catch, bind.
    rewrite Hload. simpl. unfold search_body in Hreq. rewrite Hreq. reflexivity.
Qed.

(** Witness of C4: a database without any collection, and a database whose
    search endpoint is down. *)
Lemma search_soft_fails_witness :
  fst (ZillizManager.search
         (Samples.mkEnv Samples.qwen_faithful Samples.zilliz_empty)
         "kb" Samples.sample_vector 5 None world0) = Ok [] /\
  fst (ZillizManager.search
         (Samples.mkEnv Samples.qwen_faithful
            (Samples.zilliz_search_fails [] Samples.sample_hits))
         "kb" Samples.sample_vector 5 None world0) = Ok [].
Proof.
  split.
  - exact (f_equal fst
             (proj1 (proj2 (proj2 (search_soft_fails
                (Samples.mkEnv Samples.qwen_faithful Samples.zilliz_empty)
                "kb" Samples.sample_vector 5 None world0)))
                [] _ eq_refl eq_refl)).
  - exact (f_equal fst
             (proj2 (proj2 (proj2 (search_soft_fails
                (Samples.mkEnv Samples.qwen_faithful
                   (Samples.zilliz_search_fails [] Samples.sample_hits))
                "kb" Samples.sample_vector 5 None world0)))
                _ _ _ eq_refl eq_refl)).
Defined.

(** C8: when the collection list names [collectionName], [createCollection]
    returns [true] after the list request alone: no create request is sent,
    nothing else reaches the database, and neither [vectorDim] nor
    [description] is looked at. *)
Theorem createCollection_existing
  (env : Env) (collectionName : string) (vectorDim : Z) (description : string)
  (names : list string) (w w1 : World) :
  ZillizManager.listCollections env w = (Ok (VData (DataNames names)), w1) ->
  In collectionName names ->
  ZillizManager.createCollection env collectionName vectorDim description w = (Ok true, w1) /\
  log w1 = (log w ++ [CallZilliz list_request])%list /\
  uuids_drawn w1 = uuids_drawn w /\ clock_reads w1 = clock_reads w.
Proof.
  intros Hlist Hin.
  assert (Hpresent : existsb (String.eqb collectionName) names = true).
  { apply existsb_exists. exists collectionName. split; [exact Hin|].
    apply String.eqb_refl. }
  split.
  - unfold ZillizManager.createCollection, try_catch, bind.
    rewrite Hlist. simpl. unfold ret. rewrite Hpresent. reflexivity.
  - rewrite listCollections_spec in Hlist. inversion Hlist; subst w1.
    simpl. auto.
Qed.

(** Witness of C8: the collection [kb] exists; a call with dimension 7
    succeeds with the list request only. *)
Lemma createCollection_existing_witness :
  ZillizManager.createCollection
    (Samples.mkEnv Samples.qwen_faithful (Samples.zilliz_kb [] []))
    "kb" 7 "again" world0 =
  (Ok true, record_call (CallZilliz list_request) world0).
Proof.
  exact (proj1 (createCollection_existing
                  (Samples.mkEnv Samples.qwen_faithful (Samples.zilliz_kb [] []))
                  "kb" 7 "again" ["kb"] world0 _ eq_refl
                  (or_introl eq_refl))).
Defined.

(** C9 (the code against the claim): the collection [kb] exists, the insert
    is acknowledged and the load request that follows is refused with HTTP
    500. [insertData] calls [loadCollection], drops the [false] it answers
    and returns [true]: the run is successful and the collection was never
    loaded. *)
Theorem insertData_ignores_load_failure :
  let env := Samples.mkEnv Samples.qwen_faithful (Samples.zilliz_load_fails [IdNum 7] []) in
  let item :=
    {| KnowledgeItem.vector := Some Samples.sample_vector;
       KnowledgeItem.text := "hello";
       KnowledgeItem.topic := "topic";
       KnowledgeItem.weight := JS.one;
       KnowledgeItem.title := "title";
       KnowledgeItem.tags := ["tag"];
       KnowledgeItem.created_at := 1700000000 |} in
  exists w' : World,
    ZillizManager.insertData env "kb" [item] 3 world0 = (Ok true, w') /\
    log w' = [CallZilliz list_request;
              CallZilliz (zreq ZillizManager.insert_path POST (BodyInsert "kb" [item]));
              CallZilliz list_request;
              CallZilliz (load_request "kb")] /\
    fst (ZillizManager.loadCollection env "kb"
           {| log := [CallZilliz list_request;
                      CallZilliz (zreq ZillizManager.insert_path POST
                                    (BodyInsert "kb" [item]))];
              uuids_drawn := 0; clock_reads := 0 |}) = Ok false /\
    load_acknowledged env [] (log w') "kb" = false.
Proof.
  intros env item. eexists. split; [reflexivity|].
  split; [reflexivity|]. split; reflexivity.
Qed.

(** ** KnowledgeManager: search *)

(** Numbers that compare equal are on the kept side of [>=]. *)
Lemma SFeqb_geb (x y : number) : SFeqb x y = true -> JS.geb x y = true.
Proof.
  unfold JS.geb, SFeqb, SFleb, SFcompare.
  destruct x as [sx|sx| |sx mx ex], y as [sy|sy| |sy my ey];
    try (destruct sx); try (destruct sy); try reflexivity; try discriminate.
  all: change (Pos.compare_cont Eq) with Pos.compare.
  all: destruct (Z.compare_spec ex ey); try discriminate;
    destruct (Pos.compare_spec mx my); try discriminate;
    subst; intros _; rewrite Z.compare_refl, Pos.compare_refl; reflexivity.
Qed.

(** The loop of [searchSimilar] is a filter followed by a map. *)
Lemma filter_loop_spec (results : list SearchResult.t) (scoreThreshold : number)
  (acc : list KnowledgeSearchResult.t) :
  KnowledgeManager.filter_loop results scoreThreshold acc =
  (acc ++ map KnowledgeManager.format (filter (kept scoreThreshold) results))%list.
Proof.
  revert acc. induction results as [|r rest IH]; intros acc; simpl.
  - rewrite app_nil_r. reflexivity.
  - unfold kept at 1. destruct (JS.geb (KnowledgeManager.score r) scoreThreshold).
    + rewrite IH. simpl. rewrite <- app_assoc. reflexivity.
    + apply IH.
Qed.

Lemma searchSimilar_spec (env : Env) (this : KnowledgeManager.t) (queryText : string)
  (limit : Z) (scoreThreshold : number) (w w1 w2 : World)
  (queryVector : list number) (results : list SearchResult.t) :
  QwenVectorizer.vectorizeText env queryText w = (Ok queryVector, w1) ->
  ZillizManager.search env (KnowledgeManager.collectionName this) queryVector limit
    (Some KnowledgeManager.searchOutputFields) w1 = (Ok results, w2) ->
  KnowledgeManager.searchSimilar env this queryText limit scoreThreshold w =
    (Ok (map KnowledgeManager.format (filter (kept scoreThreshold) results)), w2).
Proof.
  intros Hvec Hsearch.
  unfold KnowledgeManager.searchSimilar. rewrite try_catch_rethrow.
  unfold bind. rewrite Hvec, Hsearch. unfold ret.
  rewrite filter_loop_spec. reflexivity.
Qed.

(** A run of [searchSimilar] that returns went through a query vector and
    a list of underlying results. *)
Lemma searchSimilar_inv (env : Env) (this : KnowledgeManager.t) (queryText : string)
  (limit : Z) (scoreThreshold : number) (w w' : World)
  (found : list KnowledgeSearchResult.t) :
  KnowledgeManager.searchSimilar env this queryText limit scoreThreshold w = (Ok found, w') ->
  exists (queryVector : list number) (w1 : World) (results : list SearchResult.t),
    QwenVectorizer.vectorizeText env queryText w = (Ok queryVector, w1) /\
    ZillizManager.search env (KnowledgeManager.collectionName this) queryVector limit
      (Some KnowledgeManager.searchOutputFields) w1 = (Ok results, w') /\
    found = map KnowledgeManager.format (filter (kept scoreThreshold) results).
Proof.
  intros H.
  destruct (QwenVectorizer.vectorizeText env queryText w) as [[v|e] w1] eqn:Hvec.
  - destruct (search_total env (KnowledgeManager.collectionName this) v limit
                 (Some KnowledgeManager.searchOutputFields) w1)
      as (results & w2 & Hsearch).
    rewrite (searchSimilar_spec env this queryText limit scoreThreshold w w1 w2 v results
               Hvec Hsearch) in H.
    inversion H; subst. exists v, w1, results. auto.
  - unfold KnowledgeManager.searchSimilar in H. rewrite try_catch_rethrow in H.
    unfold bind in H. rewrite Hvec in H. discriminate.
Qed.

(** C5: [searchSimilar] returns the underlying results whose score is at or
    above [scoreThreshold], formatted, in their original order; a result
    whose score equals the threshold (it is the same number, or compares
    equal to it) is kept, and every returned object reports a score at or
    above the threshold. *)
Theorem searchSimilar_filters_inclusive
  (env : Env) (this : KnowledgeManager.t) (queryText : string) (limit : Z)
  (scoreThreshold : number) (w w1 w2 : World)
  (queryVector : list number) (results : list SearchResult.t) :
  QwenVectorizer.vectorizeText env queryText w = (Ok queryVector, w1) ->
  ZillizManager.search env (KnowledgeManager.collectionName this) queryVector limit
    (Some KnowledgeManager.searchOutputFields) w1 = (Ok results, w2) ->
  let found :=
    map KnowledgeManager.format
      (filter (fun r => JS.geb (KnowledgeManager.score r) scoreThreshold) results) in
  KnowledgeManager.searchSimilar env this queryText limit scoreThreshold w = (Ok found, w2) /\
  (forall r : SearchResult.t,
      In r results ->
      KnowledgeManager.score r = scoreThreshold \/
      SFeqb (KnowledgeManager.score r) scoreThreshold = true ->
      In (KnowledgeManager.format r) found) /\
  (forall o : KnowledgeSearchResult.t,
      In o found ->
      JS.geb (KnowledgeSearchResult.similarity_score o) scoreThreshold = true).
Proof.
  intros Hvec Hsearch found. split; [|split].
  - exact (searchSimilar_spec env this queryText limit scoreThreshold _ _ _ _ _ Hvec Hsearch).
  - intros r Hin Heq. apply in_map. apply filter_In. split; [exact Hin|].
    destruct Heq as [<- | Heq]; [apply geb_score_refl|apply SFeqb_geb; exact Heq].
  - intros o Hin. apply in_map_iff in Hin. destruct Hin as (r & <- & Hr).
    apply filter_In in Hr. exact (proj2 Hr).
Qed.

(** Witness of C5: three hits of scores 1, 0.5 and 0 against the threshold
    0.5; the first two are returned, the second one sits on the boundary. *)
Lemma searchSimilar_filters_inclusive_witness :
  fst (KnowledgeManager.searchSimilar
         (Samples.mkEnv Samples.qwen_faithful (Samples.zilliz_kb [] Samples.sample_hits))
         Samples.kb "query" 5 Samples.half world0) =
  Ok (map KnowledgeManager.format
        (map ZillizManager.formatResult
           [Samples.hit 1 JS.one "first"; Samples.hit 2 Samples.half "second"])).
Proof.
  exact (f_equal fst
           (proj1 (searchSimilar_filters_inclusive
              (Samples.mkEnv Samples.qwen_faithful (Samples.zilliz_kb [] Samples.sample_hits))
              Samples.kb "query" 5 Samples.half world0 _ _
              Samples.sample_vector
              (map ZillizManager.formatResult Samples.sample_hits)
              eq_refl eq_refl))).
Defined.

(** *** Order and counting *)

Lemma Forall_filter_keep {A : Type} (P : A -> Prop) (f : A -> bool) (l : list A) :
  Forall P l -> Forall P (filter f l).
Proof.
  induction 1 as [|a l Ha _ IH]; simpl; [constructor|].
  destruct (f a); [constructor|]; assumption.
Qed.

Lemma StronglySorted_filter {A : Type} (R : A -> A -> Prop) (f : A -> bool) (l : list A) :
  StronglySorted R l -> StronglySorted R (filter f l).
Proof.
  induction 1 as [|a l _ IH Hall]; simpl; [constructor|].
  destruct (f a); [|exact IH].
  constructor; [exact IH|]. apply Forall_filter_keep. exact Hall.
Qed.

Lemma StronglySorted_map {A B : Type} (R : B -> B -> Prop) (g : A -> B) (l : list A) :
  StronglySorted (fun a b => R (g a) (g b)) l -> StronglySorted R (map g l).
Proof.
  induction 1 as [|a l _ IH Hall]; simpl; constructor; [exact IH|].
  apply Forall_map. exact Hall.
Qed.

(** Results in descending order of distance are in descending order of score. *)
Lemma distance_descending_score (results : list SearchResult.t) :
  Sorted distance_descending results -> Sorted score_descending results.
Proof.
  assert (Hrel : forall a b, distance_descending a b -> score_descending a b).
  { intros a b. unfold distance_descending, score_descending, KnowledgeManager.score.
    destruct (SearchResult.distance a) as [x|], (SearchResult.distance b) as [y|];
      simpl; try contradiction. apply or_number_zero_monotone. }
  induction 1 as [|a l _ IH Hhd]; constructor; [exact IH|].
  destruct Hhd as [|b l Hab]; constructor. apply Hrel. exact Hab.
Qed.

Lemma score_descending_trans : Relations_1.Transitive score_descending.
Proof. intros a b c Hab Hbc. unfold score_descending in *. eapply geb_trans; eassumption. Qed.

(** Raising the threshold keeps no more results. *)
Lemma filter_kept_antitone (t1 t2 : number) (results : list SearchResult.t) :
  JS.geb t2 t1 = true ->
  (List.length (filter (kept t2) results) <= List.length (filter (kept t1) results))%nat.
Proof.
  intros Hle. induction results as [|r rest IH]; simpl; [lia|].
  destruct (kept t2 r) eqn:H2.
  - assert (H1 : kept t1 r = true) by (unfold kept in *; eapply geb_trans; eassumption).
    rewrite H1. simpl. lia.
  - destruct (kept t1 r); simpl; lia.
Qed.

(** C6: when the underlying results are in descending order of score, the
    objects [searchSimilar] returns are in descending order of
    [similarity_score]; and for thresholds [t1 <= t2] the run with [t2]
    returns no more objects than the run with [t1]. *)
Theorem searchSimilar_descending_and_antitone
  (env : Env) (this : KnowledgeManager.t) (queryText : string) (limit : Z)
  (w w1 w2 : World) (queryVector : list number) (results : list SearchResult.t) :
  QwenVectorizer.vectorizeText env queryText w = (Ok queryVector, w1) ->
  ZillizManager.search env (KnowledgeManager.collectionName this) queryVector limit
    (Some KnowledgeManager.searchOutputFields) w1 = (Ok results, w2) ->
  (Sorted score_descending results ->
   forall scoreThreshold : number,
   exists found : list KnowledgeSearchResult.t,
     KnowledgeManager.searchSimilar env this queryText limit scoreThreshold w =
       (Ok found, w2) /\
     StronglySorted similarity_descending found) /\
  (forall t1 t2 : number,
   JS.geb t2 t1 = true ->
   exists found1 found2 : list KnowledgeSearchResult.t,
     KnowledgeManager.searchSimilar env this queryText limit t1 w = (Ok found1, w2) /\
     KnowledgeManager.searchSimilar env this queryText limit t2 w = (Ok found2, w2) /\
     (List.length found2 <= List.length found1)%nat).
Proof.
  intros Hvec Hsearch. split.
  - intros Hsorted scoreThreshold. eexists. split.
    + exact (searchSimilar_spec env this queryText limit scoreThreshold _ _ _ _ _ Hvec Hsearch).
    + apply StronglySorted_map. apply StronglySorted_filter.
      apply (Sorted_StronglySorted score_descending_trans). exact Hsorted.
  - intros t1 t2 Hle. eexists. eexists. split; [|split].
    + exact (searchSimilar_spec env this queryText limit t1 _ _ _ _ _ Hvec Hsearch).
    + exact (searchSimilar_spec env this queryText limit t2 _ _ _ _ _ Hvec Hsearch).
    + rewrite !length_map. apply filter_kept_antitone. exact Hle.
Qed.

(** Witness of C6: hits of scores 1, 0.5 and 0, thresholds 0 and 0.5. *)
Lemma searchSimilar_descending_and_antitone_witness :
  exists found1 found2 : list KnowledgeSearchResult.t,
    fst (KnowledgeManager.searchSimilar
           (Samples.mkEnv Samples.qwen_faithful (Samples.zilliz_kb [] Samples.sample_hits))
           Samples.kb "query" 5 JS.zero world0) = Ok found1 /\
    fst (KnowledgeManager.searchSimilar
           (Samples.mkEnv Samples.qwen_faithful (Samples.zilliz_kb [] Samples.sample_hits))
           Samples.kb "query" 5 Samples.half world0) = Ok found2 /\
    (List.length found2 <= List.length found1)%nat /\
    StronglySorted similarity_descending found2.
Proof.
  destruct (searchSimilar_descending_and_antitone
              (Samples.mkEnv Samples.qwen_faithful (Samples.zilliz_kb [] Samples.sample_hits))
              Samples.kb "query" 5 world0 _ _ Samples.sample_vector
              (map ZillizManager.formatResult Samples.sample_hits) eq_refl eq_refl)
    as [Hsorted Hcount].
  destruct (Hcount JS.zero Samples.half eq_refl) as (found1 & found2 & H1 & H2 & Hle).
  assert (Hs : Sorted score_descending
                 (map ZillizManager.formatResult Samples.sample_hits)).
  { repeat constructor. }
  destruct (Hsorted Hs Samples.half) as (found & H & Hdesc).
  exists found1, found2. rewrite H1, H2. repeat split; [exact Hle|].
  rewrite H in H2. inversion H2; subst. exact Hdesc.
Defined.

Lemma filter_map_commute {A B : Type} (p : B -> bool) (g : A -> B) (l : list A) :
  filter p (map g l) = map g (filter (fun a => p (g a)) l).
Proof.
  induction l as [|a l IH]; simpl; [reflexivity|].
  destruct (p (g a)); simpl; rewrite IH; reflexivity.
Qed.

Lemma Forall2_map_graph {A B : Type} (R : A -> B -> Prop) (g : A -> B) (l : list A) :
  (forall a, R a (g a)) -> Forall2 R l (map g l).
Proof. intros H. induction l as [|a l IH]; simpl; constructor; auto. Qed.

(** The object built for a hit, through [formatResult] then [format]. *)
Lemma object_of_hit_fills_missing_fields (hit : RawHit) :
  fills_missing_fields hit
    (KnowledgeManager.format (ZillizManager.formatResult hit)).
Proof.
  unfold fills_missing_fields, KnowledgeManager.format, KnowledgeManager.score,
    ZillizManager.formatResult, truthy_opt_number.
  destruct hit as [i d sc t tp wt ca ti tg]. simpl.
  repeat split.
  - intros ->. reflexivity.
  - intros i0 ->. reflexivity.
  - intros ->. reflexivity.
  - intros s0 ->. destruct s0; reflexivity.
  - intros ->. reflexivity.
  - intros s0 ->. destruct s0; reflexivity.
  - intros ->. reflexivity.
  - intros s0 ->. destruct s0; reflexivity.
  - intros ->. reflexivity.
  - intros x ->. reflexivity.
  - intros ->. reflexivity.
  - intros l ->. reflexivity.
  - intros ->. reflexivity.
  - intros n ->. simpl. unfold JS.truthy_int.
    destruct (Z.eqb_spec n 0) as [->|_]; reflexivity.
  - intros x -> Hx. simpl. unfold JS.or_number. rewrite Hx, Hx. reflexivity.
  - intros Hd s0 -> Hs.
    destruct d as [x|]; simpl in *; unfold JS.or_number; [rewrite Hd|];
      rewrite Hs, Hs; reflexivity.
  - intros Hd Hs.
    destruct d as [x|], sc as [y|]; simpl in *; unfold JS.or_number;
      repeat rewrite ?Hd, ?Hs; reflexivity.
Qed.

(** C10 (amended): when the database answers the search with hits,
    [searchSimilar] returns one object per hit whose score is at or above the
    threshold, in order, and each object has every field populated from its
    own hit: a missing [id] becomes ['auto_generated'], a missing [text],
    [topic] or [title] the empty string, a missing [weight] 1.0, missing
    [tags] the empty list, a missing [created_at] 0; a missing [distance]
    falls back to the [score] of the hit when that is present and truthy,
    and gives [similarity_score] 0 otherwise. Properties that are present
    and truthy are passed on unchanged. *)
Theorem searchSimilar_fills_missing_fields_of_hits
  (env : Env) (this : KnowledgeManager.t) (queryText : string) (limit : Z)
  (scoreThreshold : number) (w w1 w2 : World) (queryVector : list number)
  (r : ZillizResponse) (hits : list RawHit) :
  QwenVectorizer.vectorizeText env queryText w = (Ok queryVector, w1) ->
  ZillizManager.loadCollection env (KnowledgeManager.collectionName this) w1 =
    (Ok true, w2) ->
  zilliz_api env (log w2)
    (search_request (KnowledgeManager.collectionName this) queryVector limit
       (Some KnowledgeManager.searchOutputFields)) = Response r ->
  acknowledged r = true ->
  data r = Some (DataHits hits) ->
  exists found : list KnowledgeSearchResult.t,
    KnowledgeManager.searchSimilar env this queryText limit scoreThreshold w =
      (Ok found,
       record_call
         (CallZilliz (search_request (KnowledgeManager.collectionName this) queryVector
                        limit (Some KnowledgeManager.searchOutputFields))) w2) /\
    Forall2 fills_missing_fields
      (filter (fun hit =>
                 JS.geb (KnowledgeManager.score (ZillizManager.formatResult hit))
                        scoreThreshold) hits)
      found.
Proof.
  intros Hvec Hload Hresp Hack Hdata.
  assert (Hsearch :
    ZillizManager.search env (KnowledgeManager.collectionName this) queryVector limit
      (Some KnowledgeManager.searchOutputFields) w1 =
    (Ok (map ZillizManager.formatResult hits),
     record_call
       (CallZilliz (search_request (KnowledgeManager.collectionName this) queryVector
                      limit (Some KnowledgeManager.searchOutputFields))) w2)).
  { unfold ZillizManager.search, try_catch, bind. rewrite Hload. simpl.
    rewrite request_spec. unfold search_request, search_body in *. simpl in *.
    rewrite Hresp, Hack, Hdata. reflexivity. }
  eexists. split.
  - exact (searchSimilar_spec env this queryText limit scoreThreshold _ _ _ _ _
             Hvec Hsearch).
  - unfold kept. rewrite filter_map_commute, map_map.
    apply Forall2_map_graph. apply object_of_hit_fills_missing_fields.
Qed.

(** Witness of C10 (amended): the database answers a hit with no property at
    all; the object returned for it carries every default. *)
Lemma searchSimilar_fills_missing_fields_of_hits_witness :
  exists found : list KnowledgeSearchResult.t,
    fst (KnowledgeManager.searchSimilar
           (Samples.mkEnv Samples.qwen_faithful
              (Samples.zilliz_kb [] [ZillizManager.no_properties]))
           Samples.kb "query" 5 JS.zero world0) = Ok found /\
    Forall2 fills_missing_fields [ZillizManager.no_properties] found.
Proof.
  destruct (searchSimilar_fills_missing_fields_of_hits
              (Samples.mkEnv Samples.qwen_faithful
                 (Samples.zilliz_kb [] [ZillizManager.no_properties]))
              Samples.kb "query" 5 JS.zero world0 _ _ Samples.sample_vector _
              [ZillizManager.no_properties] eq_refl eq_refl eq_refl eq_refl eq_refl)
    as (found & Hrun & Hfields).
  exists found. split; [rewrite Hrun; reflexivity|exact Hfields].
Defined.

(** C10 as stated fails on the distance: [ZillizManager.search] reads
    [result.distance || result.score || 0], so a hit without [distance] but
    with a [score] of 0.5 is returned with [similarity_score] 0.5, not 0. *)
Lemma searchSimilar_missing_distance_counterexample :
  exists o : KnowledgeSearchResult.t,
    fst (KnowledgeManager.searchSimilar
           (Samples.mkEnv Samples.qwen_faithful
              (Samples.zilliz_kb [] [Samples.hit_scored]))
           Samples.kb "query" 5 JS.zero world0) = Ok [o] /\
    raw_distance Samples.hit_scored = None /\
    KnowledgeSearchResult.similarity_score o = Samples.half /\
    KnowledgeSearchResult.similarity_score o <> JS.zero.
Proof.
  eexists. split; [reflexivity|]. split; [reflexivity|]. split; [reflexivity|].
  simpl. discriminate.
Qed.

(** ** KnowledgeManager: the identifier returned by a store *)

(** *** The database is never asked for an identifier *)

Section Agreement.

Variables e1 e2 : Env.

Hypothesis Hdiff : differ_in_insert_receipts e1 e2.

Lemma request_agree (p : string) (m : http_method) (b : zbody) (w : World) :
  p <> ZillizManager.insert_path ->
  ZillizManager.request e1 p m b w = ZillizManager.request e2 p m b w.
Proof.
  intros Hp. rewrite !request_spec.
  destruct Hdiff as (_ & _ & _ & Hz).
  destruct (Hz (log w) (zreq p m b)) as [-> | (Hpath & _)]; [reflexivity|].
  simpl in Hpath. contradiction.
Qed.

(** On an insert request the two runs log the same call and either end in
    the same way or both return. *)
Lemma request_insert_lockstep (m : http_method) (b : zbody) (w : World) :
  ZillizManager.request e1 ZillizManager.insert_path m b w =
    ZillizManager.request e2 ZillizManager.insert_path m b w \/
  exists v1 v2 : zvalue,
    ZillizManager.request e1 ZillizManager.insert_path m b w =
      (Ok v1, record_call (CallZilliz (zreq ZillizManager.insert_path m b)) w) /\
    ZillizManager.request e2 ZillizManager.insert_path m b w =
      (Ok v2, record_call (CallZilliz (zreq ZillizManager.insert_path m b)) w).
Proof.
  rewrite !request_spec.
  destruct Hdiff as (_ & _ & _ & Hz).
  destruct (Hz (log w) (zreq ZillizManager.insert_path m b)) as [-> | (_ & H1 & H2)];
    [left; reflexivity|].
  right.
  destruct (zilliz_api e1 (log w) (zreq ZillizManager.insert_path m b)) as [r1|];
    [|discriminate].
  destruct (zilliz_api e2 (log w) (zreq ZillizManager.insert_path m b)) as [r2|];
    [|discriminate].
  simpl in H1, H2. rewrite H1, H2. eauto.
Qed.

Lemma listCollections_agree (w : World) :
  ZillizManager.listCollections e1 w = ZillizManager.listCollections e2 w.
Proof.
  unfold ZillizManager.listCollections, try_catch, bind.
  rewrite request_agree by discriminate. reflexivity.
Qed.

Lemma createCollection_agree (name : string) (dim : Z) (description : string) (w : World) :
  ZillizManager.createCollection e1 name dim description w =
  ZillizManager.createCollection e2 name dim description w.
Proof.
  unfold ZillizManager.createCollection, try_catch, bind.
  rewrite listCollections_agree.
  destruct (ZillizManager.listCollections e2 w) as [[collections|e] w1]; [|reflexivity].
  destruct (ZillizManager.includes collections name w1) as [[[|]|e] w2]; try reflexivity.
  rewrite request_agree by discriminate. reflexivity.
Qed.

Lemma loadCollection_agree (name : string) (w : World) :
  ZillizManager.loadCollection e1 name w = ZillizManager.loadCollection e2 name w.
Proof.
  unfold ZillizManager.loadCollection, try_catch, bind.
  rewrite listCollections_agree.
  destruct (ZillizManager.listCollections e2 w) as [[collections|e] w1]; [|reflexivity].
  destruct (ZillizManager.includes collections name w1) as [[[|]|e] w2]; try reflexivity.
  simpl. rewrite request_agree by discriminate. reflexivity.
Qed.

(** [insertData] reads the insert receipt nowhere: the two runs end alike. *)
Lemma insertData_agree (name : string) (items : list KnowledgeItem.t) (dim : Z)
  (w : World) :
  ZillizManager.insertData e1 name items dim w =
  ZillizManager.insertData e2 name items dim w.
Proof.
  unfold ZillizManager.insertData, try_catch, bind.
  rewrite listCollections_agree.
  destruct (ZillizManager.listCollections e2 w) as [[collections|e] w1]; [|reflexivity].
  destruct (ZillizManager.includes collections name w1) as [[present|e] w2];
    [|reflexivity].
  assert (Hcreated :
    (if negb present
     then ZillizManager.createCollection e1 name dim ZillizManager.default_description
     else ret true) w2 =
    (if negb present
     then ZillizManager.createCollection e2 name dim ZillizManager.default_description
     else ret true) w2).
  { destruct present; simpl; [reflexivity|apply createCollection_agree]. }
  rewrite Hcreated.
  destruct ((if negb present
             then ZillizManager.createCollection e2 name dim
                    ZillizManager.default_description
             else ret true) w2) as [[[|]|e] w3]; try reflexivity.
  simpl.
  destruct (request_insert_lockstep POST (BodyInsert name items) w3)
    as [-> | (v1 & v2 & -> & ->)].
  - destruct (ZillizManager.request e2 ZillizManager.insert_path POST
                (BodyInsert name items) w3) as [[v|e] w4]; [|reflexivity].
    rewrite loadCollection_agree. reflexivity.
  - rewrite loadCollection_agree. reflexivity.
Qed.

Lemma vectorizeText_agree (text : string) (w : World) :
  QwenVectorizer.vectorizeText e1 text w = QwenVectorizer.vectorizeText e2 text w.
Proof.
  rewrite !vectorizeText_spec. destruct Hdiff as (Hq & _). rewrite Hq. reflexivity.
Qed.

Lemma vectorizeTexts_agree (texts : list string) (w : World) :
  QwenVectorizer.vectorizeTexts e1 texts w = QwenVectorizer.vectorizeTexts e2 texts w.
Proof.
  rewrite !vectorizeTexts_spec, !callEmbeddingApi_spec.
  destruct Hdiff as (Hq & _). rewrite Hq. reflexivity.
Qed.

Lemma Date_now_agree (w : World) : Date_now e1 w = Date_now e2 w.
Proof. unfold Date_now. destruct Hdiff as (_ & _ & Hc & _). rewrite Hc. reflexivity. Qed.

Lemma uuidv4_agree (w : World) : uuidv4 e1 w = uuidv4 e2 w.
Proof. unfold uuidv4. destruct Hdiff as (_ & Hu & _). rewrite Hu. reflexivity. Qed.

Lemma build_items_agree (texts : list string) (index : nat)
  (vectors : list (list number)) (metadatas : list Metadata.t) (w : World) :
  KnowledgeManager.build_items e1 texts index vectors metadatas w =
  KnowledgeManager.build_items e2 texts index vectors metadatas w.
Proof.
  revert index w. induction texts as [|text rest IH]; intros index w; simpl;
    [reflexivity|].
  destruct (nth_error metadatas index) as [metadata|]; [|reflexivity].
  unfold bind. rewrite Date_now_agree.
  destruct (Date_now e2 w) as [[now|e] w1]; [|reflexivity].
  rewrite IH. reflexivity.
Qed.

Lemma draw_uuids_agree {A : Type} (l : list A) (w : World) :
  mapM (fun _ : A => uuidv4 e1) l w = mapM (fun _ : A => uuidv4 e2) l w.
Proof.
  revert w. induction l as [|a l IH]; intros w; simpl; [reflexivity|].
  unfold bind. rewrite uuidv4_agree.
  destruct (uuidv4 e2 w) as [[u|e] w1]; [|reflexivity].
  rewrite IH. reflexivity.
Qed.

Lemma vectorizeAndStore_agree (this : KnowledgeManager.t) (text : string)
  (metadata : Metadata.t) (w : World) :
  KnowledgeManager.vectorizeAndStore e1 this text metadata w =
  KnowledgeManager.vectorizeAndStore e2 this text metadata w.
Proof.
  unfold KnowledgeManager.vectorizeAndStore. rewrite !try_catch_rethrow.
  unfold bind. rewrite vectorizeText_agree.
  destruct (QwenVectorizer.vectorizeText e2 text w) as [[v|e] w1]; [|reflexivity].
  rewrite Date_now_agree.
  destruct (Date_now e2 w1) as [[now|e] w2]; [|reflexivity].
  rewrite insertData_agree.
  destruct (ZillizManager.insertData e2 _ _ _ w2) as [[[|]|e] w3]; try reflexivity.
  rewrite uuidv4_agree. reflexivity.
Qed.

Lemma batchVectorizeAndStore_agree (this : KnowledgeManager.t) (texts : list string)
  (metadatas : list Metadata.t) (w : World) :
  KnowledgeManager.batchVectorizeAndStore e1 this texts metadatas w =
  KnowledgeManager.batchVectorizeAndStore e2 this texts metadatas w.
Proof.
  unfold KnowledgeManager.batchVectorizeAndStore.
  destruct (negb (Nat.eqb (List.length texts) (List.length metadatas))); [reflexivity|].
  rewrite !try_catch_rethrow.
  unfold bind. rewrite vectorizeTexts_agree.
  destruct (QwenVectorizer.vectorizeTexts e2 texts w) as [[vectors|e] w1]; [|reflexivity].
  rewrite build_items_agree.
  destruct (KnowledgeManager.build_items e2 texts 0 vectors metadatas w1)
    as [[items|e] w2]; [|reflexivity].
  rewrite insertData_agree.
  destruct (ZillizManager.insertData e2 _ _ _ w2) as [[[|]|e] w3]; try reflexivity.
  apply draw_uuids_agree.
Qed.

End Agreement.

(** *** The identifier is the next one of the random source *)

Lemma draws_no_uuid_ret {A : Type} (a : A) : draws_no_uuid (ret a).
Proof. intros w. reflexivity. Qed.

Lemma draws_no_uuid_throw {A : Type} (e : exn) : draws_no_uuid (@throw A e).
Proof. intros w. reflexivity. Qed.

Lemma draws_no_uuid_bind {A B : Type} (m : M A) (k : A -> M B) :
  draws_no_uuid m -> (forall a, draws_no_uuid (k a)) -> draws_no_uuid (bind m k).
Proof.
  intros Hm Hk w. unfold bind. specialize (Hm w).
  destruct (m w) as [[a|e] w1]; simpl in *.
  - rewrite Hk. exact Hm.
  - exact Hm.
Qed.

Lemma draws_no_uuid_try_catch {A : Type} (m : M A) (h : exn -> M A) :
  draws_no_uuid m -> (forall e, draws_no_uuid (h e)) -> draws_no_uuid (try_catch m h).
Proof.
  intros Hm Hh w. unfold try_catch. specialize (Hm w).
  destruct (m w) as [[a|e] w1]; simpl in *.
  - exact Hm.
  - rewrite Hh. exact Hm.
Qed.

Lemma draws_no_uuid_request (env : Env) (p : string) (m : http_method) (b : zbody) :
  draws_no_uuid (ZillizManager.request env p m b).
Proof. intros w. rewrite request_spec. reflexivity. Qed.

Lemma draws_no_uuid_includes (collections : zvalue) (name : string) :
  draws_no_uuid (ZillizManager.includes collections name).
Proof. intros w. destruct collections as [[| | |]|]; reflexivity. Qed.

Create HintDb no_uuid.

#[local] Hint Resolve draws_no_uuid_ret draws_no_uuid_throw draws_no_uuid_request
  draws_no_uuid_includes : no_uuid.

Ltac no_uuid_step :=
  first
    [ solve [auto with no_uuid]
    | match goal with
      | |- draws_no_uuid (if ?c then _ else _) => destruct c
      | |- draws_no_uuid (try_catch _ _) => apply draws_no_uuid_try_catch
      | |- draws_no_uuid (bind _ _) => apply draws_no_uuid_bind
      | |- forall _, _ => intro
      end ].

Lemma draws_no_uuid_listCollections (env : Env) :
  draws_no_uuid (ZillizManager.listCollections env).
Proof. unfold ZillizManager.listCollections. repeat no_uuid_step. Qed.

#[local] Hint Resolve draws_no_uuid_listCollections : no_uuid.

Lemma draws_no_uuid_createCollection (env : Env) (name : string) (dim : Z)
  (description : string) :
  draws_no_uuid (ZillizManager.createCollection env name dim description).
Proof. unfold ZillizManager.createCollection. repeat no_uuid_step. Qed.

Lemma draws_no_uuid_loadCollection (env : Env) (name : string) :
  draws_no_uuid (ZillizManager.loadCollection env name).
Proof. unfold ZillizManager.loadCollection. repeat no_uuid_step. Qed.

#[local] Hint Resolve draws_no_uuid_createCollection draws_no_uuid_loadCollection : no_uuid.

Lemma draws_no_uuid_insertData (env : Env) (name : string) (items : list KnowledgeItem.t)
  (dim : Z) :
  draws_no_uuid (ZillizManager.insertData env name items dim).
Proof. unfold ZillizManager.insertData. repeat no_uuid_step. Qed.

Lemma draws_no_uuid_vectorizeText (env : Env) (text : string) :
  draws_no_uuid (QwenVectorizer.vectorizeText env text).
Proof. intros w. rewrite vectorizeText_spec. reflexivity. Qed.

Lemma draws_no_uuid_vectorizeTexts (env : Env) (texts : list string) :
  draws_no_uuid (QwenVectorizer.vectorizeTexts env texts).
Proof. intros w. rewrite vectorizeTexts_spec, callEmbeddingApi_spec. reflexivity. Qed.

Lemma draws_no_uuid_Date_now (env : Env) : draws_no_uuid (Date_now env).
Proof. intros w. reflexivity. Qed.

#[local] Hint Resolve draws_no_uuid_Date_now : no_uuid.

Lemma draws_no_uuid_build_items (env : Env) (texts : list string) (index : nat)
  (vectors : list (list number)) (metadatas : list Metadata.t) :
  draws_no_uuid (KnowledgeManager.build_items env texts index vectors metadatas).
Proof.
  revert index. induction texts as [|text rest IH]; intros index; simpl.
  - auto with no_uuid.
  - destruct (nth_error metadatas index); repeat no_uuid_step.
Qed.

(** [texts.map(() => uuidv4())] draws the next identifiers, one per text. *)
Lemma draw_uuids_spec {A : Type} (env : Env) (l : list A) (w : World) :
  mapM (fun _ : A => uuidv4 env) l w =
  (Ok (map (uuid_source env) (seq (uuids_drawn w) (List.length l))),
   {| log := log w; uuids_drawn := (uuids_drawn w + List.length l)%nat;
      clock_reads := clock_reads w |}).
Proof.
  revert w. induction l as [|a l IH]; intros w; simpl.
  - unfold ret. rewrite Nat.add_0_r. destruct w; reflexivity.
  - unfold bind at 1. unfold uuidv4 at 1. unfold bind. rewrite IH. simpl.
    unfold ret. rewrite Nat.add_succ_r. reflexivity.
Qed.

Lemma vectorizeAndStore_fresh (env : Env) (this : KnowledgeManager.t) (text : string)
  (metadata : Metadata.t) (w w' : World) (docId : string) :
  KnowledgeManager.vectorizeAndStore env this text metadata w = (Ok docId, w') ->
  docId = uuid_source env (uuids_drawn w) /\ uuids_drawn w' = S (uuids_drawn w).
Proof.
  unfold KnowledgeManager.vectorizeAndStore. rewrite try_catch_rethrow.
  unfold bind. intros H.
  pose proof (draws_no_uuid_vectorizeText env text w) as H1.
  destruct (QwenVectorizer.vectorizeText env text w) as [[v|e] w1]; [|discriminate].
  pose proof (draws_no_uuid_Date_now env w1) as H2.
  destruct (Date_now env w1) as [[now|e] w2]; [|discriminate].
  match type of H with
  | context [ZillizManager.insertData env ?n ?items ?d w2] =>
      pose proof (draws_no_uuid_insertData env n items d w2) as H3;
      destruct (ZillizManager.insertData env n items d w2) as [[[|]|e] w3];
      try discriminate
  end.
  unfold uuidv4, ret in H. inversion H; subst. simpl in *.
  rewrite H3, H2, H1. split; reflexivity.
Qed.

Lemma batchVectorizeAndStore_fresh (env : Env) (this : KnowledgeManager.t)
  (texts : list string) (metadatas : list Metadata.t) (w w' : World)
  (docIds : list string) :
  KnowledgeManager.batchVectorizeAndStore env this texts metadatas w = (Ok docIds, w') ->
  docIds = map (uuid_source env) (seq (uuids_drawn w) (List.length texts)).
Proof.
  unfold KnowledgeManager.batchVectorizeAndStore.
  destruct (negb (Nat.eqb (List.length texts) (List.length metadatas)));
    [discriminate|].
  rewrite try_catch_rethrow. unfold bind. intros H.
  pose proof (draws_no_uuid_vectorizeTexts env texts w) as H1.
  destruct (QwenVectorizer.vectorizeTexts env texts w) as [[vectors|e] w1];
    [|discriminate].
  pose proof (draws_no_uuid_build_items env texts 0 vectors metadatas w1) as H2.
  destruct (KnowledgeManager.build_items env texts 0 vectors metadatas w1)
    as [[items|e] w2]; [|discriminate].
  match type of H with
  | context [ZillizManager.insertData env ?n ?its ?d w2] =>
      pose proof (draws_no_uuid_insertData env n its d w2) as H3;
      destruct (ZillizManager.insertData env n its d w2) as [[[|]|e] w3];
      try discriminate
  end.
  rewrite draw_uuids_spec in H. inversion H; subst. simpl in *.
  rewrite H3, H2, H1. reflexivity.
Qed.


(** Two sample databases that assign different identifiers to the row. *)
Lemma samples_differ_in_insert_receipts :
  differ_in_insert_receipts
    (Samples.mkEnv Samples.qwen_faithful (Samples.zilliz_kb [IdNum 7] []))
    (Samples.mkEnv Samples.qwen_faithful (Samples.zilliz_kb [IdNum 4242] [])).
Proof.
  repeat split. intros h req. simpl. unfold Samples.zilliz_kb.
  destruct (String.eqb (path req) ZillizManager.list_path); [left; reflexivity|].
  destruct (String.eqb (path req) ZillizManager.insert_path) eqn:Hins.
  - right. split; [apply String.eqb_eq; exact Hins|]. split; reflexivity.
  - left. reflexivity.
Qed.


(** * Further properties of the three classes *)

(** ** ZillizManager: closed forms *)

Lemma listCollections_answer (env : Env) (w : World) :
  ZillizManager.listCollections env w =
  (Ok (list_answer env (log w)), record_call (CallZilliz list_request) w).
Proof.
  rewrite listCollections_spec, request_spec. unfold list_answer, value_of.
  fold list_request.
  destruct (zilliz_api env (log w) list_request) as [r|st msg]; [|reflexivity].
  destruct (acknowledged r); reflexivity.
Qed.

Lemma includes_spec (collections : zvalue) (name : string) (w : World) :
  ZillizManager.includes collections name w =
  (match names_include collections name with
   | Some present => Ok present
   | None => Throw TypeError
   end, w).
Proof. destruct collections as [[| | |]|]; reflexivity. Qed.

(** A request whose answer is dropped: [await this.request(...); return true]
    inside a [try] that answers [false]. *)
Lemma request_then_true (env : Env) (p : string) (b : zbody) (w : World) :
  try_catch (bind (ZillizManager.request env p POST b) (fun _ => ret true))
            (fun _ => ret false) w =
  (Ok (acknowledges env (log w) (zreq p POST b)),
   record_call (CallZilliz (zreq p POST b)) w).
Proof.
  unfold try_catch, bind, acknowledges, reports_success. rewrite request_spec.
  destruct (zilliz_api env (log w) (zreq p POST b)) as [r|st msg]; [|reflexivity].
  destruct (acknowledged r); reflexivity.
Qed.

Lemma createCollection_spec (env : Env) (name : string) (dim : Z) (description : string)
  (w : World) :
  ZillizManager.createCollection env name dim description w =
  let w1 := record_call (CallZilliz list_request) w in
  match names_include (list_answer env (log w)) name with
  | Some true => (Ok true, w1)
  | Some false =>
      (Ok (acknowledges env (log w1) (create_request name dim)),
       record_call (CallZilliz (create_request name dim)) w1)
  | None => (Ok false, w1)
  end.
Proof.
  unfold ZillizManager.createCollection, try_catch, bind.
  rewrite listCollections_answer, includes_spec.
  destruct (names_include (list_answer env (log w)) name) as [[|]|]; try reflexivity.
  simpl. unfold acknowledges, reports_success, create_request. rewrite request_spec. simpl.
  destruct (zilliz_api env _ _) as [r0|st msg]; [|reflexivity].
  destruct (acknowledged r0); reflexivity.
Qed.

Lemma loadCollection_spec (env : Env) (name : string) (w : World) :
  ZillizManager.loadCollection env name w =
  let w1 := record_call (CallZilliz list_request) w in
  match names_include (list_answer env (log w)) name with
  | Some true =>
      (Ok (acknowledges env (log w1) (load_request name)),
       record_call (CallZilliz (load_request name)) w1)
  | _ => (Ok false, w1)
  end.
Proof.
  unfold ZillizManager.loadCollection, try_catch, bind.
  rewrite listCollections_answer, includes_spec.
  destruct (names_include (list_answer env (log w)) name) as [[|]|]; try reflexivity.
  simpl. unfold acknowledges, reports_success, load_request. rewrite request_spec. simpl.
  destruct (zilliz_api env _ _) as [r0|st msg]; [|reflexivity].
  destruct (acknowledged r0); reflexivity.
Qed.

Lemma dropCollection_spec (env : Env) (name : string) (w : World) :
  ZillizManager.dropCollection env name w =
  let w1 := record_call (CallZilliz list_request) w in
  match names_include (list_answer env (log w)) name with
  | Some true =>
      (Ok (acknowledges env (log w1) (drop_request name)),
       record_call (CallZilliz (drop_request name)) w1)
  | _ => (Ok false, w1)
  end.
Proof.
  unfold ZillizManager.dropCollection, try_catch, bind.
  rewrite listCollections_answer, includes_spec.
  destruct (names_include (list_answer env (log w)) name) as [[|]|]; try reflexivity.
  simpl. unfold acknowledges, reports_success, drop_request. rewrite request_spec. simpl.
  destruct (zilliz_api env _ _) as [r0|st msg]; [|reflexivity].
  destruct (acknowledged r0); reflexivity.
Qed.

(** The part of [insertData] that follows the existence check. *)
Lemma insertData_spec (env : Env) (name : string) (items : list KnowledgeItem.t) (dim : Z)
  (w : World) :
  ZillizManager.insertData env name items dim w =
  let w1 := record_call (CallZilliz list_request) w in
  let insert (w2 : World) :=
    let w3 := record_call (CallZilliz (insert_request name items)) w2 in
    if acknowledges env (log w2) (insert_request name items)
    then (Ok true, snd (ZillizManager.loadCollection env name w3))
    else (Ok false, w3) in
  match names_include (list_answer env (log w)) name with
  | Some true => insert w1
  | Some false =>
      match ZillizManager.createCollection env name dim
              ZillizManager.default_description w1 with
      | (Ok true, w2) => insert w2
      | (_, w2) => (Ok false, w2)
      end
  | None => (Ok false, w1)
  end.
Proof.
  assert (Hinsert : forall w2 : World,
    (let (o, w') :=
       (let (o0, w'0) :=
          ZillizManager.request env ZillizManager.insert_path POST (BodyInsert name items) w2
        in match o0 with
           | Ok _ =>
               (let (o1, w'1) := ZillizManager.loadCollection env name w'0 in
                match o1 with
                | Ok _ => ret true w'1
                | Throw e => (Throw e, w'1)
                end)
           | Throw e => (Throw e, w'0)
           end)
     in match o with
        | Ok a => (Ok a, w')
        | Throw e => ret false w'
        end) =
    (let w3 := record_call (CallZilliz (insert_request name items)) w2 in
     if acknowledges env (log w2) (insert_request name items)
     then (Ok true, snd (ZillizManager.loadCollection env name w3))
     else (Ok false, w3))).
  { intros w2. rewrite request_spec. unfold acknowledges, reports_success, insert_request.
    simpl. destruct (zilliz_api env _ _) as [r0|st msg]; [|reflexivity].
    destruct (acknowledged r0); [|reflexivity].
    simpl. rewrite loadCollection_spec. simpl.
    destruct (names_include _ name) as [[|]|]; reflexivity. }
  unfold ZillizManager.insertData, try_catch, bind.
  rewrite listCollections_answer, includes_spec.
  destruct (names_include (list_answer env (log w)) name) as [[|]|]; simpl.
  - apply Hinsert.
  - rewrite createCollection_spec. simpl.
    destruct (names_include _ name) as [[|]|]; simpl; try apply Hinsert; try reflexivity.
    destruct (acknowledges env _ (create_request name dim)); simpl;
      [apply Hinsert|reflexivity].
  - reflexivity.
Qed.

Lemma map_results_spec (v : zvalue) (w : World) :
  ZillizManager.map_results v w =
  (match v with
   | VData (DataHits _) | VData (DataNames _) => Ok (results_of v)
   | _ => Throw TypeError
   end, w).
Proof. destruct v as [[| | |]|]; reflexivity. Qed.

Lemma search_spec (env : Env) (name : string) (queryVector : list number) (limit : Z)
  (outputFields : option (list string)) (w : World) :
  ZillizManager.search env name queryVector limit outputFields w =
  match ZillizManager.loadCollection env name w with
  | (Ok true, w1) =>
      (Ok (match zilliz_api env (log w1)
                   (search_request name queryVector limit outputFields) with
           | Response r => if acknowledged r then results_of (value_of r) else []
           | AxiosFailure _ _ => []
           end),
       record_call (CallZilliz (search_request name queryVector limit outputFields)) w1)
  | (_, w1) => (Ok [], w1)
  end.
Proof.
  unfold ZillizManager.search, try_catch, bind.
  destruct (ZillizManager.loadCollection env name w) as [[[|]|e] w1]; try reflexivity.
  simpl. rewrite request_spec. unfold search_request, search_body. simpl.
  destruct (zilliz_api env _ _) as [r|st msg]; [|reflexivity].
  destruct (acknowledged r); [|reflexivity].
  rewrite map_results_spec. unfold value_of.
  destruct (data r) as [[| | |]|]; reflexivity.
Qed.

(** ** ZillizManager: what a caller can rely on *)

(** X1: [request] returns exactly when the envelope carries code 0 or
    200, and then returns [data], or the whole envelope when [data] is
    absent; a transport failure is rethrown with its status and message, a
    refused code with the message of the envelope or ["Unknown error"]; in
    every case one call, and only one, is added to the log. *)
Theorem request_accepts_codes_0_and_200
  (env : Env) (p : string) (m : http_method) (b : zbody) (w : World) :
  snd (ZillizManager.request env p m b w) = record_call (CallZilliz (zreq p m b)) w /\
  ((exists v : zvalue, fst (ZillizManager.request env p m b w) = Ok v) <->
   acknowledges env (log w) (zreq p m b) = true) /\
  (forall r : ZillizResponse,
      zilliz_api env (log w) (zreq p m b) = Response r ->
      fst (ZillizManager.request env p m b w) =
        if (code r =? 0) || (code r =? 200)
        then Ok (match data r with Some d => VData d | None => VEnvelope r end)
        else Throw (ZillizApiError
                      (match message r with
                       | Some (String c s) => String c s
                       | _ => "Unknown error"
                       end))) /\
  (forall (status : option Z) (msg : string),
      zilliz_api env (log w) (zreq p m b) = AxiosFailure status msg ->
      fst (ZillizManager.request env p m b w) = Throw (HttpError status msg)).
Proof.
  rewrite request_spec. unfold acknowledges, reports_success. simpl.
  split; [reflexivity|]. split; [|split].
  - destruct (zilliz_api env (log w) (zreq p m b)) as [r|st msg].
    + destruct (acknowledged r); split; intros H; try reflexivity; eauto.
      * destruct H as [v H]. discriminate.
      * discriminate.
    + split; [intros [v H]|intros H]; discriminate.
  - intros r ->. unfold acknowledged.
    destruct ((code r =? 0) || (code r =? 200)); [reflexivity|].
    destruct (message r) as [[|c s]|]; reflexivity.
  - intros status msg ->. reflexivity.
Qed.

Lemma createCollection_total (env : Env) (name : string) (dim : Z) (description : string)
  (w : World) :
  exists (created : bool) (w' : World),
    ZillizManager.createCollection env name dim description w = (Ok created, w').
Proof. apply try_catch_ret_total. Qed.

(** X2: no method of [ZillizManager] throws: each one ends in a value,
    whatever the database answers. *)
Theorem zilliz_methods_never_throw
  (env : Env) (name : string) (dim : Z) (description : string)
  (items : list KnowledgeItem.t) (w : World) :
  (exists v w', ZillizManager.listCollections env w = (Ok v, w')) /\
  (exists b w', ZillizManager.createCollection env name dim description w = (Ok b, w')) /\
  (exists b w', ZillizManager.loadCollection env name w = (Ok b, w')) /\
  (exists b w', ZillizManager.insertData env name items dim w = (Ok b, w')) /\
  (exists s w', ZillizManager.getCollectionStats env name w = (Ok s, w')) /\
  (exists b w', ZillizManager.dropCollection env name w = (Ok b, w')).
Proof.
  repeat split; apply try_catch_ret_total.
Qed.

(** Witness of X1: the database is unreachable. *)
Lemma request_accepts_codes_0_and_200_witness :
  fst (ZillizManager.request
         (Samples.mkEnv Samples.qwen_faithful Samples.zilliz_down)
         ZillizManager.list_path POST BodyEmpty world0) =
  Throw (HttpError None "Network Error").
Proof.
  exact (proj2 (proj2 (proj2 (request_accepts_codes_0_and_200
           (Samples.mkEnv Samples.qwen_faithful Samples.zilliz_down)
           ZillizManager.list_path POST BodyEmpty world0)))
           None "Network Error" eq_refl).
Defined.

(** A list request that fails reads as an empty list of collections. *)
Lemma list_answer_failed (env : Env) (history : list call) (name : string) :
  acknowledges env history list_request = false ->
  names_include (list_answer env history) name = Some false.
Proof.
  unfold acknowledges, reports_success, list_answer.
  destruct (zilliz_api env history list_request) as [r|st msg]; [|reflexivity].
  intros ->. reflexivity.
Qed.

(** X3: when the list does not name the collection, and in particular
    when the list request itself fails, [createCollection] sends one create
    request carrying the fixed schema with [vectorDim] as the dimension of
    the vector field, and returns whether the database acknowledged it. *)
Theorem createCollection_not_listed
  (env : Env) (name : string) (dim : Z) (description : string) (w : World) :
  acknowledges env (log w) list_request = false \/
  names_include (list_answer env (log w)) name = Some false ->
  ZillizManager.createCollection env name dim description w =
    (Ok (acknowledges env (log w ++ [CallZilliz list_request])%list
           (create_request name dim)),
     record_call (CallZilliz (create_request name dim))
       (record_call (CallZilliz list_request) w)) /\
  body (create_request name dim) =
    BodyCreate name (ZillizManager.fields dim) ZillizManager.indexParams /\
  (forall f : FieldSchema,
      In f (ZillizManager.fields dim) ->
      dimension f <> None ->
      fieldName f = "vector" /\ dimension f = Some dim).
Proof.
  intros H.
  assert (Hno : names_include (list_answer env (log w)) name = Some false).
  { destruct H as [H|H]; [apply list_answer_failed|]; exact H. }
  split; [|split].
  - rewrite createCollection_spec. simpl. rewrite Hno. reflexivity.
  - reflexivity.
  - intros f Hin Hdim. simpl in Hin.
    repeat (destruct Hin as [<-|Hin]; [try (exfalso; apply Hdim; reflexivity)|]);
      try contradiction.
    split; reflexivity.
Qed.

(** Witness of X3: a database without collections, then one that is down. *)
Lemma createCollection_not_listed_witness :
  fst (ZillizManager.createCollection
         (Samples.mkEnv Samples.qwen_faithful Samples.zilliz_empty)
         "kb" 1024 "description" world0) = Ok true /\
  fst (ZillizManager.createCollection
         (Samples.mkEnv Samples.qwen_faithful Samples.zilliz_down)
         "kb" 1024 "description" world0) = Ok false.
Proof.
  split.
  - exact (f_equal fst (proj1 (createCollection_not_listed
             (Samples.mkEnv Samples.qwen_faithful Samples.zilliz_empty)
             "kb" 1024 "description" world0 (or_intror eq_refl)))).
  - exact (f_equal fst (proj1 (createCollection_not_listed
             (Samples.mkEnv Samples.qwen_faithful Samples.zilliz_down)
             "kb" 1024 "description" world0 (or_introl eq_refl)))).
Defined.

(** X4: [loadCollection] answers [true] exactly when the list names the
    collection and the load request that follows is acknowledged; when the
    list does not name it, no load request is sent. *)
Theorem loadCollection_true_iff (env : Env) (name : string) (w : World) :
  (fst (ZillizManager.loadCollection env name w) = Ok true <->
   names_include (list_answer env (log w)) name = Some true /\
   acknowledges env (log w ++ [CallZilliz list_request])%list (load_request name) = true) /\
  (names_include (list_answer env (log w)) name <> Some true ->
   ZillizManager.loadCollection env name w =
     (Ok false, record_call (CallZilliz list_request) w)).
Proof.
  rewrite loadCollection_spec. simpl.
  destruct (names_include (list_answer env (log w)) name) as [[|]|]; simpl.
  - split.
    + split; [intros H; inversion H; auto|intros [_ ->]; reflexivity].
    + intros H. contradiction H. reflexivity.
  - split; [split; [discriminate|intros [H _]; discriminate]|reflexivity].
  - split; [split; [discriminate|intros [H _]; discriminate]|reflexivity].
Qed.

(** Witness of X4: a database without collections. *)
Lemma loadCollection_true_iff_witness :
  ZillizManager.loadCollection
    (Samples.mkEnv Samples.qwen_faithful Samples.zilliz_empty) "kb" world0 =
  (Ok false, record_call (CallZilliz list_request) world0).
Proof.
  apply (proj2 (loadCollection_true_iff
                  (Samples.mkEnv Samples.qwen_faithful Samples.zilliz_empty)
                  "kb" world0)).
  discriminate.
Defined.

(** X5: [dropCollection] answers [true] exactly when the list names the
    collection and the drop request is acknowledged; dropping a collection
    that the list does not name answers [false] and sends no drop request. *)
Theorem dropCollection_true_iff (env : Env) (name : string) (w : World) :
  (fst (ZillizManager.dropCollection env name w) = Ok true <->
   names_include (list_answer env (log w)) name = Some true /\
   acknowledges env (log w ++ [CallZilliz list_request])%list (drop_request name) = true) /\
  (names_include (list_answer env (log w)) name <> Some true ->
   ZillizManager.dropCollection env name w =
     (Ok false, record_call (CallZilliz list_request) w)).
Proof.
  rewrite dropCollection_spec. simpl.
  destruct (names_include (list_answer env (log w)) name) as [[|]|]; simpl.
  - split.
    + split; [intros H; inversion H; auto|intros [_ ->]; reflexivity].
    + intros H. contradiction H. reflexivity.
  - split; [split; [discriminate|intros [H _]; discriminate]|reflexivity].
  - split; [split; [discriminate|intros [H _]; discriminate]|reflexivity].
Qed.

(** Witness of X5: dropping [other] from a database that holds [kb]. *)
Lemma dropCollection_true_iff_witness :
  ZillizManager.dropCollection
    (Samples.mkEnv Samples.qwen_faithful (Samples.zilliz_kb [] [])) "other" world0 =
  (Ok false, record_call (CallZilliz list_request) world0).
Proof.
  apply (proj2 (dropCollection_true_iff
                  (Samples.mkEnv Samples.qwen_faithful (Samples.zilliz_kb [] []))
                  "other" world0)).
  discriminate.
Defined.

(** A [true] from [insertData] comes from an acknowledged insert. *)
Lemma insertData_true_ready
  (env : Env) (name : string) (items : list KnowledgeItem.t) (dim : Z) (w : World) :
  fst (ZillizManager.insertData env name items dim w) = Ok true ->
  exists w2 : World,
    ready_to_insert env name dim w = Some w2 /\
    acknowledges env (log w2) (insert_request name items) = true.
Proof.
  rewrite insertData_spec. unfold ready_to_insert. simpl.
  destruct (names_include (list_answer env (log w)) name) as [[|]|]; [| |discriminate].
  - destruct (acknowledges env _ (insert_request name items)) eqn:Hack; simpl;
      [|discriminate].
    intros _. eexists. split; [reflexivity|exact Hack].
  - destruct (ZillizManager.createCollection env name dim
                ZillizManager.default_description
                (record_call (CallZilliz list_request) w)) as [[[|]|e] w2];
      try discriminate.
    destruct (acknowledges env (log w2) (insert_request name items)) eqn:Hack; simpl;
      [|discriminate].
    intros _. eexists. split; [reflexivity|exact Hack].
Qed.

(** X6: [insertData] answers [true] exactly when it got as far as the
    insert request (the collection was listed, or was created on the way)
    and the database acknowledged that request; what [loadCollection]
    answers afterwards plays no part in the result. *)
Theorem insertData_true_iff
  (env : Env) (name : string) (items : list KnowledgeItem.t) (dim : Z) (w : World) :
  fst (ZillizManager.insertData env name items dim w) = Ok true <->
  exists w2 : World,
    ready_to_insert env name dim w = Some w2 /\
    acknowledges env (log w2) (insert_request name items) = true.
Proof.
  rewrite insertData_spec. unfold ready_to_insert. simpl.
  destruct (names_include (list_answer env (log w)) name) as [[|]|].
  - destruct (acknowledges env _ (insert_request name items)) eqn:Hack; simpl.
    + split; [intros _; eexists; split; [reflexivity|exact Hack]|reflexivity].
    + split; [discriminate|].
      intros (w2 & Hw2 & H). inversion Hw2; subst. simpl in H. congruence.
  - destruct (ZillizManager.createCollection env name dim
                ZillizManager.default_description
                (record_call (CallZilliz list_request) w)) as [[[|]|e] w2].
    + destruct (acknowledges env (log w2) (insert_request name items)) eqn:Hack; simpl.
      * split; [intros _; eexists; split; [reflexivity|exact Hack]|reflexivity].
      * split; [discriminate|].
        intros (w3 & Hw3 & H). inversion Hw3; subst. congruence.
    + split; [discriminate|intros (w3 & Hw3 & _); discriminate].
    + split; [discriminate|intros (w3 & Hw3 & _); discriminate].
  - split; [discriminate|intros (w3 & Hw3 & _); discriminate].
Qed.

(** X7: when the collection is neither listed nor created, [insertData]
    answers [false] and has sent no insert request: its calls are the list
    request alone (the list is not an array), two list requests (the second
    list is not an array), or two list requests followed by one create
    request, which the database refused. *)
Theorem insertData_without_collection
  (env : Env) (name : string) (items : list KnowledgeItem.t) (dim : Z) (w : World) :
  ready_to_insert env name dim w = None ->
  exists calls : list call,
    fst (ZillizManager.insertData env name items dim w) = Ok false /\
    log (snd (ZillizManager.insertData env name items dim w)) = (log w ++ calls)%list /\
    (calls = [CallZilliz list_request] \/
     calls = [CallZilliz list_request; CallZilliz list_request] \/
     calls = [CallZilliz list_request; CallZilliz list_request;
              CallZilliz (create_request name dim)]).
Proof.
  rewrite insertData_spec. unfold ready_to_insert. simpl.
  destruct (names_include (list_answer env (log w)) name) as [[|]|].
  - discriminate.
  - rewrite createCollection_spec. simpl.
    destruct (names_include (list_answer env _) name) as [[|]|]; try discriminate.
    + destruct (acknowledges env _ (create_request name dim)); [discriminate|].
      intros _. exists [CallZilliz list_request; CallZilliz list_request;
                        CallZilliz (create_request name dim)].
      simpl. rewrite <- !app_assoc. simpl. auto.
    + intros _. exists [CallZilliz list_request; CallZilliz list_request].
      simpl. rewrite <- !app_assoc. simpl. auto.
  - intros _. exists [CallZilliz list_request]. simpl. auto.
Qed.

(** Witness of X7: the database is down, so that nothing is listed and the
    creation is refused. *)
Lemma insertData_without_collection_witness :
  exists calls : list call,
    fst (ZillizManager.insertData
           (Samples.mkEnv Samples.qwen_faithful Samples.zilliz_down)
           "kb" [] 1024 world0) = Ok false /\
    log (snd (ZillizManager.insertData
                (Samples.mkEnv Samples.qwen_faithful Samples.zilliz_down)
                "kb" [] 1024 world0)) = (log world0 ++ calls)%list /\
    (calls = [CallZilliz list_request] \/
     calls = [CallZilliz list_request; CallZilliz list_request] \/
     calls = [CallZilliz list_request; CallZilliz list_request;
              CallZilliz (create_request "kb" 1024)]).
Proof.
  exact (insertData_without_collection
           (Samples.mkEnv Samples.qwen_faithful Samples.zilliz_down)
           "kb" [] 1024 world0 eq_refl).
Defined.

(** X8: when the list names the collection, [insertData] sends no create
    request: a list request, the insert request with the collection name
    and the items as given, and, only when the insert was acknowledged, the
    calls of [loadCollection]. *)
Theorem insertData_listed
  (env : Env) (name : string) (items : list KnowledgeItem.t) (dim : Z) (w : World) :
  names_include (list_answer env (log w)) name = Some true ->
  let w2 := record_call (CallZilliz (insert_request name items))
              (record_call (CallZilliz list_request) w) in
  ZillizManager.insertData env name items dim w =
    if acknowledges env (log w ++ [CallZilliz list_request])%list
         (insert_request name items)
    then (Ok true, snd (ZillizManager.loadCollection env name w2))
    else (Ok false, w2).
Proof.
  intros H w2. rewrite insertData_spec. simpl. rewrite H. reflexivity.
Qed.

(** Witness of X8: the database holds [kb]. *)
Lemma insertData_listed_witness :
  fst (ZillizManager.insertData
         (Samples.mkEnv Samples.qwen_faithful (Samples.zilliz_kb [IdNum 1] []))
         "kb" [] 1024 world0) = Ok true.
Proof.
  exact (f_equal fst (insertData_listed
           (Samples.mkEnv Samples.qwen_faithful (Samples.zilliz_kb [IdNum 1] []))
           "kb" [] 1024 world0 eq_refl)).
Defined.

(** X9: when the collection is loaded and the database answers the
    search request with an array of hits, [search] returns one result per
    hit, in the order of the answer, each built by [formatResult]. *)
Theorem search_returns_hits_in_order
  (env : Env) (name : string) (queryVector : list number) (limit : Z)
  (outputFields : option (list string)) (w w1 : World) (r : ZillizResponse)
  (hits : list RawHit) :
  ZillizManager.loadCollection env name w = (Ok true, w1) ->
  zilliz_api env (log w1) (search_request name queryVector limit outputFields) =
    Response r ->
  acknowledged r = true ->
  data r = Some (DataHits hits) ->
  ZillizManager.search env name queryVector limit outputFields w =
    (Ok (map ZillizManager.formatResult hits),
     record_call (CallZilliz (search_request name queryVector limit outputFields)) w1) /\
  List.length (map ZillizManager.formatResult hits) = List.length hits /\
  (forall i : nat,
      nth_error (map ZillizManager.formatResult hits) i =
      option_map ZillizManager.formatResult (nth_error hits i)).
Proof.
  intros Hload Hresp Hack Hdata. split; [|split].
  - rewrite search_spec, Hload, Hresp, Hack. unfold value_of. rewrite Hdata. reflexivity.
  - apply length_map.
  - intros i. apply nth_error_map.
Qed.

(** Witness of X9: the database holds three hits. *)
Lemma search_returns_hits_in_order_witness :
  fst (ZillizManager.search
         (Samples.mkEnv Samples.qwen_faithful (Samples.zilliz_kb [] Samples.sample_hits))
         "kb" Samples.sample_vector 5 None world0) =
  Ok (map ZillizManager.formatResult Samples.sample_hits).
Proof.
  exact (f_equal fst (proj1 (search_returns_hits_in_order
           (Samples.mkEnv Samples.qwen_faithful (Samples.zilliz_kb [] Samples.sample_hits))
           "kb" Samples.sample_vector 5 None world0 _ _ Samples.sample_hits
           eq_refl eq_refl eq_refl eq_refl))).
Defined.

Lemma formatResult_distance (raw : RawHit) :
  exists d : number,
    SearchResult.distance (ZillizManager.formatResult raw) = Some d /\
    d <> S754_nan /\
    d = (if truthy_opt_number (raw_distance raw) then or_zero (raw_distance raw)
         else if truthy_opt_number (raw_score raw) then or_zero (raw_score raw)
         else JS.zero).
Proof.
  eexists. split; [reflexivity|]. split.
  - destruct (raw_distance raw) as [x|]; simpl.
    + unfold JS.or_number. destruct x; simpl; try discriminate;
        apply or_opt_number_zero_not_nan.
    + apply or_opt_number_zero_not_nan.
  - unfold truthy_opt_number, or_zero.
    destruct (raw_distance raw) as [x|]; simpl.
    + unfold JS.or_number. destruct (JS.truthy_number x); [reflexivity|].
      destruct (raw_score raw) as [y|]; simpl; [|reflexivity].
      unfold JS.or_number. destruct (JS.truthy_number y); reflexivity.
    + destruct (raw_score raw) as [y|]; simpl; [|reflexivity].
      unfold JS.or_number. destruct (JS.truthy_number y); reflexivity.
Qed.

Lemma results_of_In (v : zvalue) (r : SearchResult.t) :
  In r (results_of v) -> exists raw : RawHit, r = ZillizManager.formatResult raw.
Proof.
  destruct v as [[names|hits| |]|]; simpl; try contradiction.
  - intros H. apply in_map_iff in H. destruct H as (_ & <- & _). eauto.
  - intros H. apply in_map_iff in H. destruct H as (raw & <- & _). eauto.
Qed.

(** The distance [formatResult] gives a hit. *)
Lemma formatResult_distance_rule (hit : RawHit) :
  SearchResult.distance (ZillizManager.formatResult hit) =
  Some (if truthy_opt_number (raw_distance hit) then or_zero (raw_distance hit)
        else if truthy_opt_number (raw_score hit) then or_zero (raw_score hit)
        else JS.zero).
Proof.
  destruct (formatResult_distance hit) as (d & Hd & _ & Hrule).
  rewrite Hd, Hrule. reflexivity.
Qed.

(** X10: every result [search] returns carries a distance, and that
    distance is a number, never [NaN]. When the database answers with hits,
    the result built for each hit, in order, carries the [distance] of that
    hit when it is present and truthy, else its [score] when present and
    truthy, else 0. *)
Theorem search_distance_is_a_number
  (env : Env) (name : string) (queryVector : list number) (limit : Z)
  (outputFields : option (list string)) (w : World) :
  (forall (results : list SearchResult.t) (w' : World),
      ZillizManager.search env name queryVector limit outputFields w = (Ok results, w') ->
      forall res : SearchResult.t,
        In res results ->
        exists d : number, SearchResult.distance res = Some d /\ d <> S754_nan) /\
  (forall (w1 : World) (r : ZillizResponse) (hits : list RawHit),
      ZillizManager.loadCollection env name w = (Ok true, w1) ->
      zilliz_api env (log w1) (search_request name queryVector limit outputFields) =
        Response r ->
      acknowledged r = true ->
      data r = Some (DataHits hits) ->
      exists results : list SearchResult.t,
        fst (ZillizManager.search env name queryVector limit outputFields w) =
          Ok results /\
        Forall2
          (fun hit res =>
             SearchResult.distance res =
             Some (if truthy_opt_number (raw_distance hit)
                   then or_zero (raw_distance hit)
                   else if truthy_opt_number (raw_score hit)
                        then or_zero (raw_score hit)
                        else JS.zero))
          hits results).
Proof.
  split.
  - intros results w' Hrun res Hin. rewrite search_spec in Hrun.
    assert (Hraw : exists raw : RawHit, res = ZillizManager.formatResult raw).
    { destruct (ZillizManager.loadCollection env name w) as [[[|]|e] w1];
        inversion Hrun; subst; try contradiction.
      destruct (zilliz_api env (log w1) _) as [resp|st msg]; [|contradiction].
      destruct (acknowledged resp); [|contradiction].
      eapply results_of_In. exact Hin. }
    destruct Hraw as [raw ->].
    destruct (formatResult_distance raw) as (d & Hd & Hnan & _).
    exists d. auto.
  - intros w1 r hits Hload Hresp Hack Hdata.
    exists (map ZillizManager.formatResult hits). split.
    + rewrite search_spec, Hload, Hresp, Hack. unfold value_of. rewrite Hdata.
      reflexivity.
    + apply Forall2_map_graph. apply formatResult_distance_rule.
Qed.

(** Witness of X10: a hit that carries a score and no distance. *)
Lemma search_distance_is_a_number_witness :
  exists results : list SearchResult.t,
    fst (ZillizManager.search
           (Samples.mkEnv Samples.qwen_faithful
              (Samples.zilliz_kb [] [Samples.hit_scored]))
           "kb" Samples.sample_vector 5 None world0) = Ok results /\
    Forall2
      (fun hit res =>
         SearchResult.distance res =
         Some (if truthy_opt_number (raw_distance hit)
               then or_zero (raw_distance hit)
               else if truthy_opt_number (raw_score hit)
                    then or_zero (raw_score hit)
                    else JS.zero))
      [Samples.hit_scored] results.
Proof.
  exact (proj2 (search_distance_is_a_number
                  (Samples.mkEnv Samples.qwen_faithful
                     (Samples.zilliz_kb [] [Samples.hit_scored]))
                  "kb" Samples.sample_vector 5 None world0)
               _ _ [Samples.hit_scored] eq_refl eq_refl eq_refl eq_refl).
Defined.

(** ** Traces *)

Lemma logs_only_ret {A : Type} (P : call -> Prop) (a : A) : logs_only P (ret a).
Proof. intros w. exists []. simpl. rewrite app_nil_r. auto. Qed.

Lemma logs_only_throw {A : Type} (P : call -> Prop) (e : exn) :
  logs_only P (@throw A e).
Proof. intros w. exists []. simpl. rewrite app_nil_r. auto. Qed.

Lemma logs_only_bind {A B : Type} (P : call -> Prop) (m : M A) (k : A -> M B) :
  logs_only P m -> (forall a, logs_only P (k a)) -> logs_only P (bind m k).
Proof.
  intros Hm Hk w. unfold bind. destruct (Hm w) as (c1 & H1 & F1).
  destruct (m w) as [[a|e] w1]; simpl in *.
  - destruct (Hk a w1) as (c2 & H2 & F2). exists (c1 ++ c2)%list.
    rewrite H2, H1, app_assoc. split; [reflexivity|]. apply Forall_app. auto.
  - exists c1. auto.
Qed.

Lemma logs_only_try_catch {A : Type} (P : call -> Prop) (m : M A) (h : exn -> M A) :
  logs_only P m -> (forall e, logs_only P (h e)) -> logs_only P (try_catch m h).
Proof.
  intros Hm Hh w. unfold try_catch. destruct (Hm w) as (c1 & H1 & F1).
  destruct (m w) as [[a|e] w1]; simpl in *.
  - exists c1. auto.
  - destruct (Hh e w1) as (c2 & H2 & F2). exists (c1 ++ c2)%list.
    rewrite H2, H1, app_assoc. split; [reflexivity|]. apply Forall_app. auto.
Qed.

Lemma logs_only_request (P : call -> Prop) (env : Env) (p : string) (m : http_method)
  (b : zbody) :
  P (CallZilliz (zreq p m b)) -> logs_only P (ZillizManager.request env p m b).
Proof.
  intros HP w. rewrite request_spec. exists [CallZilliz (zreq p m b)]. simpl. auto.
Qed.

Lemma logs_only_includes (P : call -> Prop) (collections : zvalue) (name : string) :
  logs_only P (ZillizManager.includes collections name).
Proof.
  intros w. rewrite includes_spec. exists []. simpl. rewrite app_nil_r. auto.
Qed.

Lemma logs_only_map_results (P : call -> Prop) (v : zvalue) :
  logs_only P (ZillizManager.map_results v).
Proof.
  intros w. rewrite map_results_spec. exists []. simpl. rewrite app_nil_r. auto.
Qed.

Lemma logs_only_callEmbeddingApi (P : call -> Prop) (env : Env) (texts : list string) :
  P (CallEmbeddings (embedding_payload texts)) ->
  logs_only P (QwenVectorizer.callEmbeddingApi env texts).
Proof.
  intros HP w. rewrite callEmbeddingApi_spec.
  exists [CallEmbeddings (embedding_payload texts)]. simpl. auto.
Qed.

Lemma logs_only_Date_now (P : call -> Prop) (env : Env) : logs_only P (Date_now env).
Proof. intros w. exists []. simpl. rewrite app_nil_r. auto. Qed.

Lemma logs_only_uuidv4 (P : call -> Prop) (env : Env) : logs_only P (uuidv4 env).
Proof. intros w. exists []. simpl. rewrite app_nil_r. auto. Qed.

Create HintDb trace.

#[local] Hint Resolve logs_only_ret logs_only_throw logs_only_request logs_only_includes
  logs_only_map_results logs_only_callEmbeddingApi logs_only_Date_now
  logs_only_uuidv4 : trace.

Ltac trace_step :=
  first
    [ solve [auto with trace]
    | match goal with
      | |- logs_only _ (if ?c then _ else _) => destruct c
      | |- logs_only _ (match ?c with _ => _ end) => destruct c
      | |- logs_only _ (try_catch _ _) => apply logs_only_try_catch
      | |- logs_only _ (bind _ _) => apply logs_only_bind
      | |- forall _, _ => intro
      end ].

Section Traces.

Variable P : call -> Prop.
Variable env : Env.
Variable name : string.

Hypothesis Hlist : P (CallZilliz list_request).

Lemma logs_only_listCollections : logs_only P (ZillizManager.listCollections env).
Proof. unfold ZillizManager.listCollections. repeat trace_step. Qed.

Hint Resolve logs_only_listCollections : trace.

Lemma logs_only_loadCollection :
  P (CallZilliz (load_request name)) ->
  logs_only P (ZillizManager.loadCollection env name).
Proof. intros Hload. unfold ZillizManager.loadCollection. repeat trace_step. Qed.

Lemma logs_only_createCollection (dim : Z) (description : string) :
  P (CallZilliz (create_request name dim)) ->
  logs_only P (ZillizManager.createCollection env name dim description).
Proof. intros Hcreate. unfold ZillizManager.createCollection. repeat trace_step. Qed.

Hint Resolve logs_only_loadCollection logs_only_createCollection : trace.

Lemma logs_only_insertData (items : list KnowledgeItem.t) (dim : Z) :
  P (CallZilliz (create_request name dim)) ->
  P (CallZilliz (insert_request name items)) ->
  P (CallZilliz (load_request name)) ->
  logs_only P (ZillizManager.insertData env name items dim).
Proof.
  intros Hcreate Hinsert Hload. unfold ZillizManager.insertData. repeat trace_step.
Qed.

Lemma logs_only_search (queryVector : list number) (limit : Z)
  (outputFields : option (list string)) :
  P (CallZilliz (load_request name)) ->
  P (CallZilliz (search_request name queryVector limit outputFields)) ->
  logs_only P (ZillizManager.search env name queryVector limit outputFields).
Proof.
  intros Hload Hsearch. unfold ZillizManager.search. repeat trace_step.
Qed.

Lemma logs_only_vectorizeText (text : string) :
  P (CallEmbeddings (embedding_payload [text])) ->
  logs_only P (QwenVectorizer.vectorizeText env text).
Proof. intros Hembed. unfold QwenVectorizer.vectorizeText. repeat trace_step. Qed.

Lemma logs_only_vectorizeTexts (texts : list string) :
  P (CallEmbeddings (embedding_payload texts)) ->
  logs_only P (QwenVectorizer.vectorizeTexts env texts).
Proof. intros Hembed. unfold QwenVectorizer.vectorizeTexts. repeat trace_step. Qed.

End Traces.

(** ** KnowledgeManager: search *)

(** X11: a search only reads. Every call [searchSimilar] makes is the
    embeddings call or a list, load or search request, and every request
    that names a collection names the manager's own: no create, insert or
    drop request is ever sent. *)
Theorem searchSimilar_only_reads
  (env : Env) (this : KnowledgeManager.t) (queryText : string) (limit : Z)
  (scoreThreshold : number) :
  logs_only (fun c => reads_only c /\ concerns (KnowledgeManager.collectionName this) c)
    (KnowledgeManager.searchSimilar env this queryText limit scoreThreshold).
Proof.
  unfold KnowledgeManager.searchSimilar.
  apply logs_only_try_catch; [|intro; apply logs_only_throw].
  apply logs_only_bind.
  - apply logs_only_vectorizeText. simpl. auto.
  - intros queryVector. apply logs_only_bind; [|intro; apply logs_only_ret].
    apply logs_only_search; simpl; auto.
Qed.

(** X12: [searchSimilar] throws exactly when the embedding of the query
    throws, with the same error and before any call to the database; no
    failure of the database makes it throw. *)
Theorem searchSimilar_throws_iff_embedding_throws
  (env : Env) (this : KnowledgeManager.t) (queryText : string) (limit : Z)
  (scoreThreshold : number) (w w' : World) (e : exn) :
  KnowledgeManager.searchSimilar env this queryText limit scoreThreshold w = (Throw e, w') <->
  QwenVectorizer.vectorizeText env queryText w = (Throw e, w').
Proof.
  unfold KnowledgeManager.searchSimilar. rewrite try_catch_rethrow. unfold bind.
  destruct (QwenVectorizer.vectorizeText env queryText w) as [[v|e1] w1].
  - destruct (search_total env (KnowledgeManager.collectionName this) v limit
                (Some KnowledgeManager.searchOutputFields) w1) as (rs & w2 & ->).
    unfold ret. split; discriminate.
  - split; intros H; inversion H; reflexivity.
Qed.

(** At or above zero means not below zero, for a number that is not [NaN]. *)
Lemma geb_zero (x : number) :
  x <> S754_nan -> JS.geb x JS.zero = negb (negative x).
Proof.
  destruct x as [s|s| |s m e]; try destruct s; try reflexivity.
  intros H. contradiction H. reflexivity.
Qed.

(** X13: with the default threshold 0 the filter is not void: results
    whose score is below zero are dropped, and exactly those. *)
Theorem searchSimilar_default_threshold
  (env : Env) (this : KnowledgeManager.t) (queryText : string) (limit : Z)
  (w w1 w2 : World) (queryVector : list number) (results : list SearchResult.t) :
  QwenVectorizer.vectorizeText env queryText w = (Ok queryVector, w1) ->
  ZillizManager.search env (KnowledgeManager.collectionName this) queryVector limit
    (Some KnowledgeManager.searchOutputFields) w1 = (Ok results, w2) ->
  KnowledgeManager.searchSimilar env this queryText limit
    KnowledgeManager.default_scoreThreshold w =
  (Ok (map KnowledgeManager.format
         (filter (fun r => negb (negative (KnowledgeManager.score r))) results)), w2).
Proof.
  intros Hvec Hsearch.
  rewrite (searchSimilar_spec env this queryText limit _ _ _ _ _ _ Hvec Hsearch).
  f_equal. f_equal. f_equal. apply filter_ext. intros r. unfold kept.
  apply geb_zero. apply or_opt_number_zero_not_nan.
Qed.

(** Witness of X13: a hit of score -0.5 among hits of scores 1 and 0. *)
Lemma searchSimilar_default_threshold_witness :
  fst (KnowledgeManager.searchSimilar
         (Samples.mkEnv Samples.qwen_faithful
            (Samples.zilliz_kb []
               [Samples.hit 1 JS.one "first";
                Samples.hit 2 (S754_finite true 4503599627370496 (-53)) "opposite";
                Samples.hit 3 JS.zero "third"]))
         Samples.kb "query" 5 KnowledgeManager.default_scoreThreshold world0) =
  Ok (map KnowledgeManager.format
        (map ZillizManager.formatResult
           [Samples.hit 1 JS.one "first"; Samples.hit 3 JS.zero "third"])).
Proof.
  exact (f_equal fst (searchSimilar_default_threshold
           (Samples.mkEnv Samples.qwen_faithful
              (Samples.zilliz_kb []
                 [Samples.hit 1 JS.one "first";
                  Samples.hit 2 (S754_finite true 4503599627370496 (-53)) "opposite";
                  Samples.hit 3 JS.zero "third"]))
           Samples.kb "query" 5 world0 _ _ Samples.sample_vector _ eq_refl eq_refl)).
Defined.

Lemma filter_kept_nan (results : list SearchResult.t) :
  filter (kept S754_nan) results = [].
Proof.
  induction results as [|r rest IH]; [reflexivity|]. simpl.
  unfold kept at 1, JS.geb. simpl. exact IH.
Qed.

Lemma filter_kept_minus_infinity (results : list SearchResult.t) :
  filter (kept (S754_infinity true)) results = results.
Proof.
  induction results as [|r rest IH]; [reflexivity|]. simpl.
  assert (Hk : kept (S754_infinity true) r = true).
  { unfold kept, JS.geb.
    pose proof (or_opt_number_zero_not_nan (SearchResult.distance r)) as Hn.
    unfold KnowledgeManager.score.
    destruct (JS.or_opt_number (SearchResult.distance r) JS.zero) as [s|s| |s m e];
      try destruct s; try reflexivity. contradiction Hn. reflexivity. }
  rewrite Hk, IH. reflexivity.
Qed.

(** X14: the two ends of the threshold. With [NaN] as threshold nothing
    is returned; with minus infinity every underlying result is returned. *)
Theorem searchSimilar_threshold_extremes
  (env : Env) (this : KnowledgeManager.t) (queryText : string) (limit : Z)
  (w w1 w2 : World) (queryVector : list number) (results : list SearchResult.t) :
  QwenVectorizer.vectorizeText env queryText w = (Ok queryVector, w1) ->
  ZillizManager.search env (KnowledgeManager.collectionName this) queryVector limit
    (Some KnowledgeManager.searchOutputFields) w1 = (Ok results, w2) ->
  KnowledgeManager.searchSimilar env this queryText limit S754_nan w = (Ok [], w2) /\
  KnowledgeManager.searchSimilar env this queryText limit (S754_infinity true) w =
    (Ok (map KnowledgeManager.format results), w2).
Proof.
  intros Hvec Hsearch. split.
  - rewrite (searchSimilar_spec env this queryText limit _ _ _ _ _ _ Hvec Hsearch).
    rewrite filter_kept_nan. reflexivity.
  - rewrite (searchSimilar_spec env this queryText limit _ _ _ _ _ _ Hvec Hsearch).
    rewrite filter_kept_minus_infinity. reflexivity.
Qed.

(** Witness of X14: three hits. *)
Lemma searchSimilar_threshold_extremes_witness :
  fst (KnowledgeManager.searchSimilar
         (Samples.mkEnv Samples.qwen_faithful (Samples.zilliz_kb [] Samples.sample_hits))
         Samples.kb "query" 5 S754_nan world0) = Ok [] /\
  fst (KnowledgeManager.searchSimilar
         (Samples.mkEnv Samples.qwen_faithful (Samples.zilliz_kb [] Samples.sample_hits))
         Samples.kb "query" 5 (S754_infinity true) world0) =
  Ok (map KnowledgeManager.format
        (map ZillizManager.formatResult Samples.sample_hits)).
Proof.
  destruct (searchSimilar_threshold_extremes
              (Samples.mkEnv Samples.qwen_faithful (Samples.zilliz_kb [] Samples.sample_hits))
              Samples.kb "query" 5 world0 _ _ Samples.sample_vector
              (map ZillizManager.formatResult Samples.sample_hits) eq_refl eq_refl)
    as [Hnan Hinf].
  split; [rewrite Hnan|rewrite Hinf]; reflexivity.
Defined.

(** ** KnowledgeManager: stores *)

Lemma logs_only_build_items (P : call -> Prop) (env : Env) (texts : list string)
  (index : nat) (vectors : list (list number)) (metadatas : list Metadata.t) :
  logs_only P (KnowledgeManager.build_items env texts index vectors metadatas).
Proof.
  revert index. induction texts as [|text rest IH]; intros index; simpl.
  - apply logs_only_ret.
  - destruct (nth_error metadatas index); [|apply logs_only_throw].
    apply logs_only_bind; [apply logs_only_Date_now|]. intros now.
    apply logs_only_bind; [apply IH|]. intros items. apply logs_only_ret.
Qed.

Lemma logs_only_draw_uuids {A : Type} (P : call -> Prop) (env : Env) (l : list A) :
  logs_only P (mapM (fun _ : A => uuidv4 env) l).
Proof.
  intros w. rewrite draw_uuids_spec. exists []. simpl. rewrite app_nil_r. auto.
Qed.

(** X15: a store never searches and never drops, and touches no other
    collection. Every call [vectorizeAndStore] and [batchVectorizeAndStore]
    make is the embeddings call or a list, create, insert or load request,
    and every request that names a collection names the manager's own. *)
Theorem stores_only_store
  (env : Env) (this : KnowledgeManager.t) (text : string) (metadata : Metadata.t)
  (texts : list string) (metadatas : list Metadata.t) :
  logs_only (fun c => stores_only c /\ concerns (KnowledgeManager.collectionName this) c)
    (KnowledgeManager.vectorizeAndStore env this text metadata) /\
  logs_only (fun c => stores_only c /\ concerns (KnowledgeManager.collectionName this) c)
    (KnowledgeManager.batchVectorizeAndStore env this texts metadatas).
Proof.
  split.
  - unfold KnowledgeManager.vectorizeAndStore.
    apply logs_only_try_catch; [|intro; apply logs_only_throw].
    apply logs_only_bind; [apply logs_only_vectorizeText; simpl; auto|].
    intros v. apply logs_only_bind; [apply logs_only_Date_now|]. intros now.
    apply logs_only_bind.
    + apply logs_only_insertData; simpl; auto 6.
    + intros [|]; [|apply logs_only_throw].
      apply logs_only_bind; [apply logs_only_uuidv4|]. intro. apply logs_only_ret.
  - unfold KnowledgeManager.batchVectorizeAndStore.
    destruct (negb (Nat.eqb (List.length texts) (List.length metadatas)));
      [apply logs_only_throw|].
    apply logs_only_try_catch; [|intro; apply logs_only_throw].
    apply logs_only_bind; [apply logs_only_vectorizeTexts; simpl; auto|].
    intros vectors. apply logs_only_bind; [apply logs_only_build_items|].
    intros items. apply logs_only_bind.
    + apply logs_only_insertData; simpl; auto 6.
    + intros [|]; [apply logs_only_draw_uuids|apply logs_only_throw].
Qed.

(** X16: when the embedding throws, the store throws the same error at
    once: nothing is sent to the database, the clock is not read and no
    identifier is drawn. *)
Theorem store_stops_at_embedding_failure
  (env : Env) (this : KnowledgeManager.t) (w w' : World) (e : exn) :
  (forall (text : string) (metadata : Metadata.t),
      QwenVectorizer.vectorizeText env text w = (Throw e, w') ->
      KnowledgeManager.vectorizeAndStore env this text metadata w = (Throw e, w') /\
      w' = record_call (CallEmbeddings (embedding_payload [text])) w) /\
  (forall (texts : list string) (metadatas : list Metadata.t),
      List.length texts = List.length metadatas ->
      QwenVectorizer.vectorizeTexts env texts w = (Throw e, w') ->
      KnowledgeManager.batchVectorizeAndStore env this texts metadatas w = (Throw e, w') /\
      w' = record_call (CallEmbeddings (embedding_payload texts)) w).
Proof.
  split.
  - intros text metadata H. split.
    + unfold KnowledgeManager.vectorizeAndStore. rewrite try_catch_rethrow.
      unfold bind. rewrite H. reflexivity.
    + rewrite vectorizeText_spec in H. inversion H. reflexivity.
  - intros texts metadatas Hlen H. split.
    + unfold KnowledgeManager.batchVectorizeAndStore.
      rewrite Hlen, Nat.eqb_refl. simpl. rewrite try_catch_rethrow.
      unfold bind. rewrite H. reflexivity.
    + rewrite vectorizeTexts_spec, callEmbeddingApi_spec in H. inversion H. reflexivity.
Qed.

(** Witness of X16: the embedding service is down. *)
Lemma store_stops_at_embedding_failure_witness :
  KnowledgeManager.vectorizeAndStore
    (Samples.mkEnv Samples.qwen_down (Samples.zilliz_kb [] []))
    Samples.kb "hello" Samples.sample_metadata world0 =
  (Throw (ApiRequestFailed "timeout of 30000ms exceeded"),
   record_call (CallEmbeddings (embedding_payload ["hello"])) world0) /\
  KnowledgeManager.batchVectorizeAndStore
    (Samples.mkEnv Samples.qwen_down (Samples.zilliz_kb [] []))
    Samples.kb ["hello"] [Samples.sample_metadata] world0 =
  (Throw (ApiRequestFailed "timeout of 30000ms exceeded"),
   record_call (CallEmbeddings (embedding_payload ["hello"])) world0).
Proof.
  destruct (store_stops_at_embedding_failure
              (Samples.mkEnv Samples.qwen_down (Samples.zilliz_kb [] []))
              Samples.kb world0
              (record_call (CallEmbeddings (embedding_payload ["hello"])) world0)
              (ApiRequestFailed "timeout of 30000ms exceeded")) as [H1 H2].
  split.
  - exact (proj1 (H1 "hello" Samples.sample_metadata eq_refl)).
  - exact (proj1 (H2 ["hello"] [Samples.sample_metadata] eq_refl eq_refl)).
Defined.

(** X17: a store that throws has drawn no identifier: identifiers of the
    random source are consumed by successful stores only. *)
Theorem failed_store_draws_no_uuid
  (env : Env) (this : KnowledgeManager.t) (w w' : World) (e : exn) :
  (forall (text : string) (metadata : Metadata.t),
      KnowledgeManager.vectorizeAndStore env this text metadata w = (Throw e, w') ->
      uuids_drawn w' = uuids_drawn w) /\
  (forall (texts : list string) (metadatas : list Metadata.t),
      KnowledgeManager.batchVectorizeAndStore env this texts metadatas w = (Throw e, w') ->
      uuids_drawn w' = uuids_drawn w).
Proof.
  split.
  - intros text metadata.
    unfold KnowledgeManager.vectorizeAndStore. rewrite try_catch_rethrow.
    unfold bind. intros H.
    pose proof (draws_no_uuid_vectorizeText env text w) as H1.
    destruct (QwenVectorizer.vectorizeText env text w) as [[v|e1] w1];
      [|inversion H; subst; exact H1].
    pose proof (draws_no_uuid_Date_now env w1) as H2.
    destruct (Date_now env w1) as [[now|e1] w2];
      [|inversion H; subst; simpl in *; congruence].
    match type of H with
    | context [ZillizManager.insertData env ?n ?items ?d w2] =>
        pose proof (draws_no_uuid_insertData env n items d w2) as H3;
        destruct (ZillizManager.insertData env n items d w2) as [[[|]|e1] w3]
    end; simpl in *.
    + unfold uuidv4, ret in H. discriminate.
    + inversion H; subst. congruence.
    + inversion H; subst. congruence.
  - intros texts metadatas.
    unfold KnowledgeManager.batchVectorizeAndStore.
    destruct (negb (Nat.eqb (List.length texts) (List.length metadatas)));
      [intros H; inversion H; reflexivity|].
    rewrite try_catch_rethrow. unfold bind. intros H.
    pose proof (draws_no_uuid_vectorizeTexts env texts w) as H1.
    destruct (QwenVectorizer.vectorizeTexts env texts w) as [[vectors|e1] w1];
      [|inversion H; subst; exact H1].
    pose proof (draws_no_uuid_build_items env texts 0 vectors metadatas w1) as H2.
    destruct (KnowledgeManager.build_items env texts 0 vectors metadatas w1)
      as [[items|e1] w2]; [|inversion H; subst; simpl in *; congruence].
    match type of H with
    | context [ZillizManager.insertData env ?n ?its ?d w2] =>
        pose proof (draws_no_uuid_insertData env n its d w2) as H3;
        destruct (ZillizManager.insertData env n its d w2) as [[[|]|e1] w3]
    end; simpl in *.
    + rewrite draw_uuids_spec in H. discriminate.
    + inversion H; subst. congruence.
    + inversion H; subst. congruence.
Qed.

(** Witness of X17: the database is down, the store fails. *)
Lemma failed_store_draws_no_uuid_witness :
  uuids_drawn
    (snd (KnowledgeManager.vectorizeAndStore
            (Samples.mkEnv Samples.qwen_faithful Samples.zilliz_down)
            Samples.kb "hello" Samples.sample_metadata world0)) = 0%nat.
Proof.
  exact (proj1 (failed_store_draws_no_uuid
                  (Samples.mkEnv Samples.qwen_faithful Samples.zilliz_down)
                  Samples.kb world0 _ StoreFailed)
               "hello" Samples.sample_metadata eq_refl).
Defined.

Lemma NoDup_map_injective {A B : Type} (f : A -> B) (l : list A) :
  (forall x y, f x = f y -> x = y) -> NoDup l -> NoDup (map f l).
Proof.
  intros Hinj. induction 1 as [|a l Hnotin _ IH]; simpl; constructor; [|exact IH].
  intros Hin. apply in_map_iff in Hin. destruct Hin as (b & Heq & Hb).
  apply Hinj in Heq. subst. contradiction.
Qed.

(** X18: a successful batch returns one identifier per text, the next
    ones of the random source in order; they are pairwise distinct as soon
    as the source does not repeat itself. *)
Theorem batchVectorizeAndStore_one_id_per_text
  (env : Env) (this : KnowledgeManager.t) (texts : list string)
  (metadatas : list Metadata.t) (w w' : World) (docIds : list string) :
  KnowledgeManager.batchVectorizeAndStore env this texts metadatas w = (Ok docIds, w') ->
  List.length docIds = List.length texts /\
  (forall i : nat,
      (i < List.length texts)%nat ->
      nth_error docIds i = Some (uuid_source env (uuids_drawn w + i))) /\
  ((forall i j : nat, uuid_source env i = uuid_source env j -> i = j) -> NoDup docIds).
Proof.
  intros H. apply batchVectorizeAndStore_fresh in H. subst docIds.
  split; [|split].
  - rewrite length_map, length_seq. reflexivity.
  - intros i Hi. rewrite nth_error_map.
    rewrite nth_error_seq. destruct (Nat.ltb_spec i (List.length texts)); [|lia].
    reflexivity.
  - intros Hinj. apply NoDup_map_injective; [exact Hinj|apply seq_NoDup].
Qed.

(** Witness of X18: two texts against the sample services. *)
Lemma batchVectorizeAndStore_one_id_per_text_witness :
  List.length [Samples.uuids 0; Samples.uuids 1] = 2%nat.
Proof.
  exact (proj1 (batchVectorizeAndStore_one_id_per_text
                  (Samples.mkEnv Samples.qwen_faithful (Samples.zilliz_kb [] []))
                  Samples.kb ["first"; "second"]
                  [Samples.sample_metadata; Samples.sample_metadata] world0 _
                  [Samples.uuids 0; Samples.uuids 1] eq_refl)).
Defined.

(** [build_items] builds one item per text. *)
Lemma build_items_lengths
  (env : Env) (texts : list string) (index : nat) (vectors : list (list number))
  (metadatas : list Metadata.t) (w w' : World) (items : list KnowledgeItem.t) :
  KnowledgeManager.build_items env texts index vectors metadatas w = (Ok items, w') ->
  List.length items = List.length texts.
Proof.
  revert index w w' items.
  induction texts as [|text rest IH]; intros index w w' items H; simpl in H.
  - unfold ret in H. inversion H. reflexivity.
  - destruct (nth_error metadatas index) as [metadata|]; [|discriminate].
    unfold bind in H. simpl in H.
    destruct (KnowledgeManager.build_items env rest (S index) vectors metadatas _)
      as [[tail|e] w1] eqn:Hrest; [|discriminate].
    unfold ret in H. inversion H; subst. simpl. rewrite (IH _ _ _ _ Hrest). reflexivity.
Qed.

(** X19: the items of a batch are aligned: the item built for the i-th
    text carries that text, the i-th vector of the embedding answer, the
    fields of the i-th metadata and its own reading of the clock, in
    seconds. Where the answer holds fewer vectors than there are texts, the
    item is built all the same, without a vector. *)
Theorem build_items_aligned
  (env : Env) (texts : list string) (index : nat) (vectors : list (list number))
  (metadatas : list Metadata.t) (w w' : World) (items : list KnowledgeItem.t) :
  KnowledgeManager.build_items env texts index vectors metadatas w = (Ok items, w') ->
  List.length items = List.length texts /\
  clock_reads w' = (clock_reads w + List.length texts)%nat /\
  forall (i : nat) (text : string),
    nth_error texts i = Some text ->
    exists metadata : Metadata.t,
      nth_error metadatas (index + i) = Some metadata /\
      nth_error items i =
        Some (item_of_store (nth_error vectors (index + i)) text metadata
                (date_now env (clock_reads w + i))).
Proof.
  revert index w w' items.
  induction texts as [|text rest IH]; intros index w w' items H; simpl in H.
  - unfold ret in H. inversion H; subst. simpl. split; [reflexivity|].
    split; [lia|]. intros [|i] t Ht; discriminate.
  - destruct (nth_error metadatas index) as [metadata|] eqn:Hmeta; [|discriminate].
    unfold bind in H. simpl in H.
    destruct (KnowledgeManager.build_items env rest (S index) vectors metadatas _)
      as [[tail|e] w1] eqn:Hrest; [|discriminate].
    unfold ret in H. inversion H; subst.
    destruct (IH _ _ _ _ Hrest) as (Hlen & Hclock & Hnth). simpl in Hclock.
    split; [simpl; rewrite Hlen; reflexivity|].
    split; [simpl; lia|].
    intros [|i] t Ht; simpl in Ht.
    + inversion Ht; subst. exists metadata. rewrite !Nat.add_0_r.
      split; [exact Hmeta|reflexivity].
    + destruct (Hnth i t Ht) as (md & Hmd & Hitem). exists md.
      replace (index + S i)%nat with (S index + i)%nat by lia.
      split; [exact Hmd|]. simpl. rewrite Hitem. simpl.
      replace (clock_reads w + S i)%nat with (S (clock_reads w + i))%nat by lia.
      reflexivity.
Qed.

(** Witness of X19: two texts, one vector: the second item has none. *)
Lemma build_items_aligned_witness :
  exists metadata : Metadata.t,
    nth_error [Samples.sample_metadata; Samples.sample_metadata] (0 + 1) = Some metadata /\
    nth_error
      [item_of_store (Some Samples.sample_vector) "first" Samples.sample_metadata
         (Samples.clock 0);
       item_of_store None "second" Samples.sample_metadata (Samples.clock 1)] 1 =
    Some (item_of_store (nth_error [Samples.sample_vector] (0 + 1)) "second" metadata
            (Samples.clock (0 + 1))).
Proof.
  exact (proj2 (proj2 (build_items_aligned
           (Samples.mkEnv Samples.qwen_single (Samples.zilliz_kb [] []))
           ["first"; "second"] 0 [Samples.sample_vector]
           [Samples.sample_metadata; Samples.sample_metadata] world0 _ _ eq_refl))
           1%nat "second" eq_refl).
Defined.

(** X20: a store that returns an identifier has had its insert
    acknowledged: the embedding returned a vector, the collection was listed
    or created, and the database acknowledged the insert of exactly one item
    carrying that vector, the text, the metadata and the clock in seconds. *)
Theorem vectorizeAndStore_success_acknowledged
  (env : Env) (this : KnowledgeManager.t) (text : string) (metadata : Metadata.t)
  (w w' : World) (docId : string) :
  KnowledgeManager.vectorizeAndStore env this text metadata w = (Ok docId, w') ->
  exists (v : list number) (w2 : World),
    fst (QwenVectorizer.vectorizeText env text w) = Ok v /\
    ready_to_insert env (KnowledgeManager.collectionName this)
      (KnowledgeManager.vectorDim this)
      {| log := (log w ++ [CallEmbeddings (embedding_payload [text])])%list;
         uuids_drawn := uuids_drawn w;
         clock_reads := S (clock_reads w) |} = Some w2 /\
    acknowledges env (log w2)
      (insert_request (KnowledgeManager.collectionName this)
         [item_of_store (Some v) text metadata (date_now env (clock_reads w))]) = true.
Proof.
  unfold KnowledgeManager.vectorizeAndStore. rewrite try_catch_rethrow.
  unfold bind. intros H.
  pose proof (vectorizeText_spec env text w) as Hspec.
  destruct (QwenVectorizer.vectorizeText env text w) as [[v|e] w1]; [|discriminate].
  inversion Hspec as [[Hv Hw1]]. subst w1. simpl in H.
  match type of H with
  | context [ZillizManager.insertData env ?n ?items ?d ?w0] =>
      destruct (ZillizManager.insertData env n items d w0) as [[[|]|e] w3] eqn:Hins;
      try discriminate
  end.
  assert (Htrue : fst (ZillizManager.insertData env (KnowledgeManager.collectionName this)
            [item_of_store (Some v) text metadata (date_now env (clock_reads w))]
            (KnowledgeManager.vectorDim this)
            {| log := (log w ++ [CallEmbeddings (embedding_payload [text])])%list;
               uuids_drawn := uuids_drawn w;
               clock_reads := S (clock_reads w) |}) = Ok true).
  { unfold item_of_store. rewrite Hins. reflexivity. }
  apply insertData_true_ready in Htrue. destruct Htrue as (w2 & Hready & Hack).
  exists v, w2. auto.
Qed.

(** Witness of X20: a store against the sample services. *)
Lemma vectorizeAndStore_success_acknowledged_witness :
  exists (v : list number) (w2 : World),
    fst (QwenVectorizer.vectorizeText
           (Samples.mkEnv Samples.qwen_faithful (Samples.zilliz_kb [IdNum 7] []))
           "hello" world0) = Ok v /\
    ready_to_insert
      (Samples.mkEnv Samples.qwen_faithful (Samples.zilliz_kb [IdNum 7] []))
      "kb" 1024
      {| log := [CallEmbeddings (embedding_payload ["hello"])];
         uuids_drawn := 0; clock_reads := 1 |} = Some w2 /\
    acknowledges
      (Samples.mkEnv Samples.qwen_faithful (Samples.zilliz_kb [IdNum 7] []))
      (log w2)
      (insert_request "kb"
         [item_of_store (Some v) "hello" Samples.sample_metadata (Samples.clock 0)]) = true.
Proof.
  exact (vectorizeAndStore_success_acknowledged
           (Samples.mkEnv Samples.qwen_faithful (Samples.zilliz_kb [IdNum 7] []))
           Samples.kb "hello" Samples.sample_metadata world0 _ (Samples.uuids 0)
           eq_refl).
Defined.

(** X21: a batch that returns identifiers has sent all its items in one
    insert request, which the database acknowledged: one item per text,
    built from the vectors of the single embedding call. *)
Theorem batchVectorizeAndStore_success_acknowledged
  (env : Env) (this : KnowledgeManager.t) (texts : list string)
  (metadatas : list Metadata.t) (w w' : World) (docIds : list string) :
  KnowledgeManager.batchVectorizeAndStore env this texts metadatas w = (Ok docIds, w') ->
  exists (vectors : list (list number)) (items : list KnowledgeItem.t) (w1 w2 : World),
    fst (QwenVectorizer.vectorizeTexts env texts w) = Ok vectors /\
    KnowledgeManager.build_items env texts 0 vectors metadatas
      (record_call (CallEmbeddings (embedding_payload texts)) w) = (Ok items, w1) /\
    List.length items = List.length texts /\
    ready_to_insert env (KnowledgeManager.collectionName this)
      (KnowledgeManager.vectorDim this) w1 = Some w2 /\
    acknowledges env (log w2)
      (insert_request (KnowledgeManager.collectionName this) items) = true.
Proof.
  unfold KnowledgeManager.batchVectorizeAndStore.
  destruct (negb (Nat.eqb (List.length texts) (List.length metadatas)));
    [discriminate|].
  rewrite try_catch_rethrow. unfold bind. intros H.
  pose proof (vectorizeTexts_spec env texts w) as Hspec.
  rewrite callEmbeddingApi_spec in Hspec.
  destruct (QwenVectorizer.vectorizeTexts env texts w) as [[vectors|e] w0];
    [|discriminate].
  inversion Hspec as [[Hv Hw0]].
  rewrite <- Hw0.
  destruct (KnowledgeManager.build_items env texts 0 vectors metadatas w0)
    as [[items|e] w1] eqn:Hitems; [|discriminate].
  destruct (ZillizManager.insertData env (KnowledgeManager.collectionName this) items
              (KnowledgeManager.vectorDim this) w1) as [[[|]|e] w3] eqn:Hins;
    try discriminate.
  assert (Htrue : fst (ZillizManager.insertData env (KnowledgeManager.collectionName this)
                         items (KnowledgeManager.vectorDim this) w1) = Ok true)
    by (rewrite Hins; reflexivity).
  apply insertData_true_ready in Htrue. destruct Htrue as (w2 & Hready & Hack).
  exists vectors, items, w1, w2.
  repeat split; auto.
  exact (build_items_lengths _ _ _ _ _ _ _ _ Hitems).
Qed.

(** Witness of X21: a batch of two against the sample services. *)
Lemma batchVectorizeAndStore_success_acknowledged_witness :
  exists (vectors : list (list number)) (items : list KnowledgeItem.t) (w1 w2 : World),
    fst (QwenVectorizer.vectorizeTexts
           (Samples.mkEnv Samples.qwen_faithful (Samples.zilliz_kb [IdNum 7; IdNum 8] []))
           ["first"; "second"] world0) = Ok vectors /\
    KnowledgeManager.build_items
      (Samples.mkEnv Samples.qwen_faithful (Samples.zilliz_kb [IdNum 7; IdNum 8] []))
      ["first"; "second"] 0 vectors [Samples.sample_metadata; Samples.sample_metadata]
      (record_call (CallEmbeddings (embedding_payload ["first"; "second"])) world0) =
      (Ok items, w1) /\
    List.length items = 2%nat /\
    ready_to_insert
      (Samples.mkEnv Samples.qwen_faithful (Samples.zilliz_kb [IdNum 7; IdNum 8] []))
      "kb" 1024 w1 = Some w2 /\
    acknowledges
      (Samples.mkEnv Samples.qwen_faithful (Samples.zilliz_kb [IdNum 7; IdNum 8] []))
      (log w2) (insert_request "kb" items) = true.
Proof.
  exact (batchVectorizeAndStore_success_acknowledged
           (Samples.mkEnv Samples.qwen_faithful (Samples.zilliz_kb [IdNum 7; IdNum 8] []))
           Samples.kb ["first"; "second"]
           [Samples.sample_metadata; Samples.sample_metadata] world0 _
           [Samples.uuids 0; Samples.uuids 1] eq_refl).
Defined.

(** ** KnowledgeManager: information and bootstrap *)

(** X22: [getCollectionInfo] never throws and makes one call, the
    describe request. It reports the manager's own collection name and its
    cached vector dimension, never a dimension read from the database; the
    statistics are the answer of the database, or the empty object when the
    describe request fails. *)
Theorem getCollectionInfo_reports_cached_dimension
  (env : Env) (this : KnowledgeManager.t) (w : World) :
  KnowledgeManager.getCollectionInfo env this w =
  (Ok {| KnowledgeManager.collection_name := KnowledgeManager.collectionName this;
         KnowledgeManager.vector_dimension := KnowledgeManager.vectorDim this;
         KnowledgeManager.stats :=
           match zilliz_api env (log w)
                   (describe_request (KnowledgeManager.collectionName this)) with
           | Response r => if acknowledged r then StatsOf (value_of r) else StatsEmpty
           | AxiosFailure _ _ => StatsEmpty
           end |},
   record_call (CallZilliz (describe_request (KnowledgeManager.collectionName this))) w).
Proof.
  unfold KnowledgeManager.getCollectionInfo, ZillizManager.getCollectionStats,
    try_catch, bind.
  rewrite request_spec. unfold describe_request, value_of. simpl.
  destruct (zilliz_api env _ _) as [r|st msg]; [|reflexivity].
  destruct (acknowledged r); reflexivity.
Qed.

Lemma ensureCollectionExists_spec (env : Env) (this : KnowledgeManager.t) (w : World) :
  KnowledgeManager.ensureCollectionExists env this w =
  let w1 := record_call (CallZilliz list_request) w in
  match names_include (list_answer env (log w)) (KnowledgeManager.collectionName this) with
  | Some true => (Ok tt, w1)
  | Some false =>
      match ZillizManager.createCollection env (KnowledgeManager.collectionName this)
              (KnowledgeManager.vectorDim this)
              ("知识库集合 - " ++ KnowledgeManager.collectionName this) w1 with
      | (Ok true, w2) => (Ok tt, w2)
      | (Ok false, w2) => (Throw CollectionCreateFailed, w2)
      | (Throw e, w2) => (Throw e, w2)
      end
  | None => (Throw TypeError, w1)
  end.
Proof.
  unfold KnowledgeManager.ensureCollectionExists. rewrite try_catch_rethrow.
  unfold bind. rewrite listCollections_answer, includes_spec. simpl.
  destruct (names_include _ _) as [[|]|]; try reflexivity. simpl.
  unfold KnowledgeManager.createCollection. rewrite try_catch_rethrow. unfold bind.
  destruct (ZillizManager.createCollection env _ _ _ _) as [[[|]|e] w2]; reflexivity.
Qed.

Lemma ensureCollectionExists_errors (env : Env) (this : KnowledgeManager.t) (w w' : World)
  (e : exn) :
  KnowledgeManager.ensureCollectionExists env this w = (Throw e, w') ->
  e = CollectionCreateFailed \/ e = TypeError.
Proof.
  rewrite ensureCollectionExists_spec. cbv zeta.
  destruct (names_include _ _) as [[|]|].
  - discriminate.
  - destruct (ZillizManager.createCollection env _ _ _ _) as [[[|]|e0] w2] eqn:Hc;
      intros H; inversion H; subst; auto.
    match type of Hc with
    | ZillizManager.createCollection ?a ?b ?c ?d ?x = _ =>
        destruct (createCollection_total a b c d x) as (created & w3 & Hb)
    end.
    rewrite Hb in Hc. discriminate.
  - intros H. inversion H; auto.
Qed.

(** X23: [ensureCollectionExists] returns after the list request alone
    when the list names the collection; when it does not, it returns
    exactly when [createCollection] answers [true]; and the only errors it
    throws are the creation failure and the type error of a list that is
    not an array. *)
Theorem ensureCollectionExists_outcomes
  (env : Env) (this : KnowledgeManager.t) (w : World) :
  (names_include (list_answer env (log w)) (KnowledgeManager.collectionName this) =
     Some true ->
   KnowledgeManager.ensureCollectionExists env this w =
     (Ok tt, record_call (CallZilliz list_request) w)) /\
  (names_include (list_answer env (log w)) (KnowledgeManager.collectionName this) =
     Some false ->
   (fst (KnowledgeManager.ensureCollectionExists env this w) = Ok tt <->
    fst (ZillizManager.createCollection env (KnowledgeManager.collectionName this)
           (KnowledgeManager.vectorDim this)
           ("知识库集合 - " ++ KnowledgeManager.collectionName this)
           (record_call (CallZilliz list_request) w)) = Ok true)) /\
  (forall (e : exn) (w' : World),
      KnowledgeManager.ensureCollectionExists env this w = (Throw e, w') ->
      e = CollectionCreateFailed \/ e = TypeError).
Proof.
  rewrite ensureCollectionExists_spec. simpl.
  split; [|split].
  - intros ->. reflexivity.
  - intros ->.
    destruct (ZillizManager.createCollection env _ _ _ _) as [[[|]|e] w2]; simpl;
      split; intros H; try reflexivity; discriminate.
  - intros e w'. rewrite <- ensureCollectionExists_spec.
    apply ensureCollectionExists_errors.
Qed.

(** Witness of X23: the collection exists; the database is empty. *)
Lemma ensureCollectionExists_outcomes_witness :
  KnowledgeManager.ensureCollectionExists
    (Samples.mkEnv Samples.qwen_faithful (Samples.zilliz_kb [] [])) Samples.kb world0 =
  (Ok tt, record_call (CallZilliz list_request) world0) /\
  fst (KnowledgeManager.ensureCollectionExists
         (Samples.mkEnv Samples.qwen_faithful Samples.zilliz_empty) Samples.kb world0) =
  Ok tt.
Proof.
  split.
  - exact (proj1 (ensureCollectionExists_outcomes
                    (Samples.mkEnv Samples.qwen_faithful (Samples.zilliz_kb [] []))
                    Samples.kb world0) eq_refl).
  - exact (proj2 (proj1 (proj2 (ensureCollectionExists_outcomes
                    (Samples.mkEnv Samples.qwen_faithful Samples.zilliz_empty)
                    Samples.kb world0)) eq_refl) eq_refl).
Defined.

Lemma getVectorDimension_total (env : Env) (w : World) :
  exists (dim : Z) (w' : World), QwenVectorizer.getVectorDimension env w = (Ok dim, w').
Proof. apply try_catch_ret_total. Qed.



(** ** Constructors *)

(** X25: the constructor of [ZillizManager] fails without an endpoint,
    whatever the credentials. With an endpoint, the token is the first that
    is set and not empty among ZILLIZ_TOKEN, ZILLIZ_API_KEY and the pair
    ZILLIZ_USERNAME and ZILLIZ_PASSWORD, joined by a colon; the
    Authorization header is the bearer form of that token; with none of
    them the constructor fails. *)
Theorem zilliz_new_credentials (penv : process_env) :
  let E := truthy_opt_string (penv "ZILLIZ_ENDPOINT") in
  let T := truthy_opt_string (penv "ZILLIZ_TOKEN") in
  let K := truthy_opt_string (penv "ZILLIZ_API_KEY") in
  let U := truthy_opt_string (penv "ZILLIZ_USERNAME") in
  let P := truthy_opt_string (penv "ZILLIZ_PASSWORD") in
  let configured (t : string) : config_error + ZillizManager.config :=
    inr {| ZillizManager.endpoint := env_value (penv "ZILLIZ_ENDPOINT");
           ZillizManager.token := t;
           ZillizManager.headers :=
             [("Authorization", "Bearer " ++ t);
              ("Accept", "application/json");
              ("Content-Type", "application/json")] |} in
  (E = false -> ZillizManager.new penv = inl MissingEndpoint) /\
  (E = true -> T = true ->
   ZillizManager.new penv = configured (env_value (penv "ZILLIZ_TOKEN"))) /\
  (E = true -> T = false -> K = true ->
   ZillizManager.new penv = configured (env_value (penv "ZILLIZ_API_KEY"))) /\
  (E = true -> T = false -> K = false -> U = true -> P = true ->
   ZillizManager.new penv =
     configured (env_value (penv "ZILLIZ_USERNAME") ++ ":" ++
                 env_value (penv "ZILLIZ_PASSWORD"))) /\
  (E = true -> T = false -> K = false -> U && P = false ->
   ZillizManager.new penv = inl MissingCredentials).
Proof.
  unfold ZillizManager.new, or_undefined, truthy_opt_string, env_value, JS.or_opt_string.
  destruct (penv "ZILLIZ_ENDPOINT") as [[|c0 s0]|];
    destruct (penv "ZILLIZ_TOKEN") as [[|c1 s1]|];
    destruct (penv "ZILLIZ_API_KEY") as [[|c2 s2]|];
    destruct (penv "ZILLIZ_USERNAME") as [[|c3 s3]|];
    destruct (penv "ZILLIZ_PASSWORD") as [[|c4 s4]|];
    simpl; repeat split; intros; try discriminate; reflexivity.
Qed.

(** Witness of X25: everything is set, the token wins; the token is
    empty and no API key is set, the password pair is used. *)
Lemma zilliz_new_credentials_witness :
  (exists c : ZillizManager.config,
      ZillizManager.new Samples.penv_token = inr c /\
      ZillizManager.token c = "token-1") /\
  (exists c : ZillizManager.config,
      ZillizManager.new Samples.penv_password = inr c /\
      ZillizManager.token c = "user:secret").
Proof.
  split.
  - eexists. split.
    + exact (proj1 (proj2 (zilliz_new_credentials Samples.penv_token)) eq_refl eq_refl).
    + reflexivity.
  - eexists. split.
    + exact (proj1 (proj2 (proj2 (proj2 (zilliz_new_credentials Samples.penv_password))))
                   eq_refl eq_refl eq_refl eq_refl eq_refl).
    + reflexivity.
Defined.

(** X26: the constructor of [QwenVectorizer] takes QWEN_API_KEY when it
    is set and not empty, else DASHSCOPE_API_KEY, and fails with neither;
    the base address is QWEN_BASE_URL when set and not empty, else the
    DashScope default, and the embeddings endpoint is that address followed
    by [/embeddings]. *)
Theorem qwen_new_api_key (penv : process_env) :
  let Q := truthy_opt_string (penv "QWEN_API_KEY") in
  let D := truthy_opt_string (penv "DASHSCOPE_API_KEY") in
  let base :=
    if truthy_opt_string (penv "QWEN_BASE_URL")
    then env_value (penv "QWEN_BASE_URL")
    else QwenVectorizer.default_baseUrl in
  let configured (k : string) : config_error + QwenVectorizer.config :=
    inr {| QwenVectorizer.apiKey := k;
           QwenVectorizer.baseUrl := base;
           QwenVectorizer.config_model := QwenVectorizer.model;
           QwenVectorizer.headers :=
             [("Authorization", "Bearer " ++ k);
              ("Content-Type", "application/json")] |} in
  (Q = true ->
   QwenVectorizer.new penv = configured (env_value (penv "QWEN_API_KEY"))) /\
  (Q = false -> D = true ->
   QwenVectorizer.new penv = configured (env_value (penv "DASHSCOPE_API_KEY"))) /\
  (Q = false -> D = false -> QwenVectorizer.new penv = inl MissingApiKey) /\
  (forall c : QwenVectorizer.config,
      QwenVectorizer.new penv = inr c ->
      QwenVectorizer.embeddings_url c = base ++ "/embeddings").
Proof.
  unfold QwenVectorizer.new, QwenVectorizer.embeddings_url, or_undefined,
    truthy_opt_string, env_value, JS.or_opt_string.
  destruct (penv "QWEN_API_KEY") as [[|c0 s0]|];
    destruct (penv "DASHSCOPE_API_KEY") as [[|c1 s1]|];
    destruct (penv "QWEN_BASE_URL") as [[|c2 s2]|];
    simpl; repeat split; intros; try discriminate; try reflexivity;
    match goal with
    | H : inr _ = inr _ |- _ => inversion H; subst; reflexivity
    end.
Qed.

(** Witness of X26: only the DashScope key is set; both keys and a base
    address are set. *)
Lemma qwen_new_api_key_witness :
  (exists c : QwenVectorizer.config,
      QwenVectorizer.new Samples.penv_token = inr c /\
      QwenVectorizer.apiKey c = "dash-1" /\
      QwenVectorizer.embeddings_url c =
        "https://dashscope.aliyuncs.com/compatible-mode/v1/embeddings") /\
  (exists c : QwenVectorizer.config,
      QwenVectorizer.new Samples.penv_password = inr c /\
      QwenVectorizer.apiKey c = "qwen-1" /\
      QwenVectorizer.embeddings_url c = "https://proxy.example/v1/embeddings").
Proof.
  split.
  - eexists. split; [|split].
    + exact (proj1 (proj2 (qwen_new_api_key Samples.penv_token)) eq_refl eq_refl).
    + reflexivity.
    + reflexivity.
  - eexists. split; [|split].
    + exact (proj1 (qwen_new_api_key Samples.penv_password) eq_refl).
    + reflexivity.
    + reflexivity.
Defined.

(** ** QwenVectorizer: failures *)

Lemma embeddings_of_None (items : list EmbeddingItem) :
  (exists item : EmbeddingItem, In item items /\ embedding item = None) ->
  embeddings_of items = None.
Proof.
  intros (item & Hin & Hnone). induction items as [|i rest IH]; [contradiction|].
  simpl. destruct Hin as [->|Hin].
  - rewrite Hnone. reflexivity.
  - rewrite (IH Hin). destruct (embedding i); reflexivity.
Qed.

Lemma embeddings_of_all (items : list EmbeddingItem) (vectors : list (list number)) :
  embeddings_of items = Some vectors ->
  forall item : EmbeddingItem, In item items -> embedding item <> None.
Proof.
  intros H item Hin Hnone.
  rewrite (embeddings_of_None items) in H; [discriminate|]. eauto.
Qed.

(** X27: a batch is embedded whole or not at all. If a single item of
    the response lacks its embedding, [vectorizeTexts] throws and returns
    no vector, wherever the item stands; and whatever goes wrong, the error
    is the request failure carrying the transport message, or the
    vectorization failure wrapping a malformed response. *)
Theorem vectorizeTexts_all_or_nothing
  (env : Env) (texts : list string) (w : World) :
  (forall (r : QwenEmbeddingResponse) (items : list EmbeddingItem),
      embeddings_api env (log w) (embedding_payload texts) = Response r ->
      qwen_data r = Some items ->
      (exists item : EmbeddingItem, In item items /\ embedding item = None) ->
      QwenVectorizer.vectorizeTexts env texts w =
        (Throw (VectorizeFailed MissingEmbedding),
         record_call (CallEmbeddings (embedding_payload texts)) w)) /\
  (forall (e : exn) (w' : World),
      QwenVectorizer.vectorizeTexts env texts w = (Throw e, w') ->
      (exists (status : option Z) (msg : string),
          embeddings_api env (log w) (embedding_payload texts) = AxiosFailure status msg /\
          e = ApiRequestFailed msg) \/
      e = VectorizeFailed ResponseFormatError \/
      e = VectorizeFailed MissingEmbedding).
Proof.
  rewrite vectorizeTexts_spec, callEmbeddingApi_spec. split.
  - intros r items -> -> Hmissing. rewrite (embeddings_of_None items Hmissing).
    reflexivity.
  - intros e w'.
    destruct (embeddings_api env (log w) (embedding_payload texts)) as [r|st msg].
    + destruct (qwen_data r) as [items|].
      * destruct (embeddings_of items); intros H; inversion H; auto.
      * intros H; inversion H; auto.
    + intros H; inversion H. left. eauto.
Qed.

(** Witness of X27: the second of two items has no embedding. *)
Lemma vectorizeTexts_all_or_nothing_witness :
  QwenVectorizer.vectorizeTexts
    (Samples.mkEnv Samples.qwen_gap Samples.zilliz_down)
    ["first"; "second"] world0 =
  (Throw (VectorizeFailed MissingEmbedding),
   record_call (CallEmbeddings (embedding_payload ["first"; "second"])) world0).
Proof.
  apply (proj1 (vectorizeTexts_all_or_nothing
                  (Samples.mkEnv Samples.qwen_gap Samples.zilliz_down)
                  ["first"; "second"] world0)
               _ [Samples.item_of Samples.sample_vector 0;
                  {| embedding := None; index := 1 |}] eq_refl eq_refl).
  exists {| embedding := None; index := 1 |}. split; [right; left|]; reflexivity.
Defined.



(** ** KnowledgeManager: what a store can throw *)

Lemma insertData_total (env : Env) (name : string) (items : list KnowledgeItem.t)
  (dim : Z) (w : World) :
  exists (stored : bool) (w' : World),
    ZillizManager.insertData env name items dim w = (Ok stored, w').
Proof. apply try_catch_ret_total. Qed.

(** With a metadata for every text, [build_items] does not throw. *)
Lemma build_items_total (env : Env) (texts : list string) (index : nat)
  (vectors : list (list number)) (metadatas : list Metadata.t) (w : World) :
  (index + List.length texts <= List.length metadatas)%nat ->
  exists (items : list KnowledgeItem.t) (w' : World),
    KnowledgeManager.build_items env texts index vectors metadatas w = (Ok items, w').
Proof.
  revert index w. induction texts as [|text rest IH]; intros index w Hlen; simpl.
  - unfold ret. eauto.
  - simpl in Hlen.
    destruct (nth_error metadatas index) as [metadata|] eqn:Hmeta.
    + unfold bind. simpl.
      destruct (IH (S index)
                  {| log := log w; uuids_drawn := uuids_drawn w;
                     clock_reads := S (clock_reads w) |}) as (items & w' & ->); [lia|].
      unfold ret. eauto.
    + apply nth_error_None in Hmeta. lia.
Qed.

(** X29: the errors a store can throw. [vectorizeAndStore] throws the
    error of the embedding or the store failure; [batchVectorizeAndStore]
    throws the length mismatch, the error of the embedding or the batch
    store failure. What the database answered never reaches the caller:
    every failure on its side surfaces as the same store failure. *)
Theorem store_errors
  (env : Env) (this : KnowledgeManager.t) (w w' : World) (e : exn) :
  (forall (text : string) (metadata : Metadata.t),
      KnowledgeManager.vectorizeAndStore env this text metadata w = (Throw e, w') ->
      e = StoreFailed \/
      fst (QwenVectorizer.vectorizeText env text w) = Throw e) /\
  (forall (texts : list string) (metadatas : list Metadata.t),
      KnowledgeManager.batchVectorizeAndStore env this texts metadatas w = (Throw e, w') ->
      e = LengthMismatch \/ e = BatchStoreFailed \/
      fst (QwenVectorizer.vectorizeTexts env texts w) = Throw e).
Proof.
  split.
  - intros text metadata.
    unfold KnowledgeManager.vectorizeAndStore. rewrite try_catch_rethrow. unfold bind.
    destruct (QwenVectorizer.vectorizeText env text w) as [[v|e1] w1];
      [|intros H; inversion H; auto].
    simpl.
    match goal with
    | |- context [ZillizManager.insertData env ?n ?items ?d ?w0] =>
        destruct (insertData_total env n items d w0) as (stored & w3 & ->)
    end.
    destruct stored; [unfold uuidv4, ret; discriminate|].
    intros H. inversion H. auto.
  - intros texts metadatas.
    unfold KnowledgeManager.batchVectorizeAndStore.
    destruct (Nat.eqb_spec (List.length texts) (List.length metadatas)) as [Hlen|Hlen];
      simpl; [|intros H; inversion H; auto].
    rewrite try_catch_rethrow. unfold bind.
    destruct (QwenVectorizer.vectorizeTexts env texts w) as [[vectors|e1] w1];
      [|intros H; inversion H; auto].
    destruct (build_items_total env texts 0 vectors metadatas w1) as (items & w2 & ->);
      [simpl; lia|].
    destruct (insertData_total env (KnowledgeManager.collectionName this) items
                (KnowledgeManager.vectorDim this) w2) as (stored & w3 & ->).
    destruct stored; [rewrite draw_uuids_spec; discriminate|].
    intros H. inversion H. auto.
Qed.

(** Witness of X29: the database is down; the caller sees the store
    failure, not the network error. *)
Lemma store_errors_witness :
  StoreFailed = StoreFailed \/
  fst (QwenVectorizer.vectorizeText
         (Samples.mkEnv Samples.qwen_faithful Samples.zilliz_down) "hello" world0) =
  Throw StoreFailed.
Proof.
  exact (proj1 (store_errors
                  (Samples.mkEnv Samples.qwen_faithful Samples.zilliz_down)
                  Samples.kb world0 _ StoreFailed)
               "hello" Samples.sample_metadata eq_refl).
Defined.

(** ** QwenVectorizer: the batch that succeeds *)

Lemma embeddings_of_complete (items : list EmbeddingItem) (vectors : list (list number)) :
  map embedding items = map Some vectors -> embeddings_of items = Some vectors.
Proof.
  revert vectors. induction items as [|item rest IH]; intros [|v vs] H; simpl in *;
    try discriminate; [reflexivity|].
  inversion H as [[Hitem Hrest]]. rewrite Hitem, (IH vs Hrest). reflexivity.
Qed.

(** X30: [vectorizeTexts] makes one call to the embeddings endpoint for
    the whole batch, whatever the outcome. It returns exactly when the
    response carries [data] and every item of it carries an embedding, and
    what it returns is then the list of those embeddings, one per item and
    in the order of the response: as many vectors as texts as soon as the
    service answers one item per text. *)
Theorem vectorizeTexts_returns_response_embeddings
  (env : Env) (texts : list string) (w : World) :
  snd (QwenVectorizer.vectorizeTexts env texts w) =
    record_call (CallEmbeddings (embedding_payload texts)) w /\
  (forall vectors : list (list number),
      fst (QwenVectorizer.vectorizeTexts env texts w) = Ok vectors <->
      exists (r : QwenEmbeddingResponse) (items : list EmbeddingItem),
        embeddings_api env (log w) (embedding_payload texts) = Response r /\
        qwen_data r = Some items /\
        map embedding items = map Some vectors) /\
  (forall (r : QwenEmbeddingResponse) (items : list EmbeddingItem)
          (vectors : list (list number)),
      embeddings_api env (log w) (embedding_payload texts) = Response r ->
      qwen_data r = Some items ->
      fst (QwenVectorizer.vectorizeTexts env texts w) = Ok vectors ->
      List.length vectors = List.length items /\
      (List.length items = List.length texts ->
       List.length vectors = List.length texts)).
Proof.
  rewrite vectorizeTexts_spec, callEmbeddingApi_spec. simpl.
  split; [reflexivity|]. split.
  - intros vectors. split.
    + destruct (embeddings_api env (log w) (embedding_payload texts)) as [r|st msg];
        [|discriminate].
      destruct (qwen_data r) as [items|] eqn:Hdata; [|discriminate].
      destruct (embeddings_of items) as [vs|] eqn:Hemb; [|discriminate].
      intros H. inversion H; subst. exists r, items.
      repeat split; auto. apply embeddings_of_Some. exact Hemb.
    + intros (r & items & -> & -> & Hmap).
      rewrite (embeddings_of_complete items vectors Hmap). reflexivity.
  - intros r items vectors -> ->.
    destruct (embeddings_of items) as [vs|] eqn:Hemb; [|discriminate].
    intros H. inversion H; subst.
    assert (Hlen : List.length vectors = List.length items).
    { rewrite <- (length_map Some vectors), <- (embeddings_of_Some _ _ Hemb), length_map.
      reflexivity. }
    split; [exact Hlen|]. intros <-. exact Hlen.
Qed.

(** Witness of X30: a service that answers one item per text. *)
Lemma vectorizeTexts_returns_response_embeddings_witness :
  fst (QwenVectorizer.vectorizeTexts
         (Samples.mkEnv Samples.qwen_faithful Samples.zilliz_down)
         ["first"; "second"] world0) =
  Ok [Samples.sample_vector; Samples.sample_vector].
Proof.
  apply (proj2 (proj1 (proj2 (vectorizeTexts_returns_response_embeddings
                  (Samples.mkEnv Samples.qwen_faithful Samples.zilliz_down)
                  ["first"; "second"] world0))
               [Samples.sample_vector; Samples.sample_vector])).
  eexists. eexists. split; [reflexivity|]. split; reflexivity.
Defined.
